(** * Instance scheduler: the schedule handler of [src/index.ts]

    A shallow embedding of the Lambda handler that starts and stops EC2 and
    Lightsail instances on a schedule, together with the properties of its
    decision logic.

    Conventions of the embedding.
    - A JavaScript [Date] is represented by its wall-clock reading in the
      process time zone, in milliseconds since 1970-01-01T00:00 local time.
      The time zone is one with a fixed offset to UTC (as Asia/Tokyo, the
      zone the handler is written for, has), so that [getTime] differs from
      the wall-clock reading by the constant [tzOffsetMs].
    - The numeric fields of a schedule ([eventHour], [eventMinute], the
      entries of [weekdays], [holiday]) are integers, and dates are exact:
      the source computes in IEEE doubles and a [Date] holds at most
      8.64e15 ms, so the embedding agrees with it for hours and minutes of
      ordinary size ([moderateTime] below) and clock readings of the current
      era. An Invalid Date and the NaN it yields are not represented.
    - JavaScript strings are [string]s holding the UTF-8 bytes of the text.
    - [undefined] for an optional property is [None]. *)

From Stdlib Require Import ZArith QArith Lia List.
From stdpp Require Import base option list strings pretty gmap.

Close Scope Q_scope.
Local Open Scope string_scope.
Local Open Scope Z_scope.

(** ** The part of [Date] the handler uses *)

Module Date.

(** Wall-clock milliseconds since the local epoch. *)
Definition t : Type := Z.

Definition msPerSecond : Z := 1000.
Definition msPerMinute : Z := 60000.
Definition msPerHour : Z := 3600000.
Definition msPerDay : Z := 86400000.

(** Day number of the local calendar day ([Day(t)] of ECMA-262). *)
Definition day (d : t) : Z := d / msPerDay.

(** Milliseconds elapsed since local midnight ([TimeWithinDay]). *)
Definition timeWithinDay (d : t) : Z := d mod msPerDay.

Definition startOfDay (d : t) : Z := day d * msPerDay.

Definition getHours (d : t) : Z := timeWithinDay d / msPerHour.
Definition getMinutes (d : t) : Z := (d mod msPerHour) / msPerMinute.
Definition getSeconds (d : t) : Z := (d mod msPerMinute) / msPerSecond.

(** [getDay]: 0 = Sunday .. 6 = Saturday; 1970-01-01 was a Thursday. *)
Definition getDay (d : t) : Z := (day d + 4) mod 7.

(** [d.setHours(hour, min, sec, ms)]: the calendar day of [d] is kept and
    the time within it replaced; fields out of range carry over into the
    neighbouring days ([MakeDate (Day t) (MakeTime hour min sec ms)]). *)
Definition setHours (d : t) (hour min sec ms : Z) : t :=
  startOfDay d + (hour * msPerHour + min * msPerMinute + sec * msPerSecond + ms).

(** [getTime]: milliseconds since the UTC epoch. *)
Definition getTime (tzOffsetMs : Z) (d : t) : Z := d - tzOffsetMs.

(** Civil date of a day number (proleptic Gregorian calendar), the
    computation behind [YearFromTime], [MonthFromTime] and [DateFromTime]. *)
Record civil : Type := Civil { c_year : Z; c_month : Z; c_mday : Z }.

Definition civilFromDays (days : Z) : civil :=
  let z := days + 719468 in
  let era := z / 146097 in
  let doe := z mod 146097 in
  let yoe := (doe - doe / 1460 + doe / 36524 - doe / 146096) / 365 in
  let y := yoe + era * 400 in
  let doy := doe - (365 * yoe + yoe / 4 - yoe / 100) in
  let mp := (5 * doy + 2) / 153 in
  let d := doy - (153 * mp + 2) / 5 + 1 in
  let m := if mp <? 10 then mp + 3 else mp - 9 in
  Civil (if m <=? 2 then y + 1 else y) m d.

Definition getFullYear (d : t) : Z := c_year (civilFromDays (day d)).
(** [getMonth] counts from 0. *)
Definition getMonth (d : t) : Z := c_month (civilFromDays (day d)) - 1.
Definition getDate (d : t) : Z := c_mday (civilFromDays (day d)).

(** Wall-clock reading of a civil date and time, used to write dates down
    in examples (inverse direction of [civilFromDays]). *)
Definition daysFromCivil (y m d : Z) : Z :=
  let y' := if m <=? 2 then y - 1 else y in
  let era := y' / 400 in
  let yoe := y' mod 400 in
  let doy := (153 * (if 2 <? m then m - 3 else m + 9) + 2) / 5 + d - 1 in
  let doe := yoe * 365 + yoe / 4 - yoe / 100 + doy in
  era * 146097 + doe - 719468.

Definition make (y m d hh mm ss ms : Z) : t :=
  daysFromCivil y m d * msPerDay
  + hh * msPerHour + mm * msPerMinute + ss * msPerSecond + ms.

End Date.

(** [String(n)] / [n.toString()] for an integer [n]. *)
Definition numberToString (n : Z) : string := pretty n.

(** [s.padStart(targetLength, pad)] for a one-character [pad]. *)
Fixpoint repeatString (n : nat) (pad : string) : string :=
  match n with
  | O => ""
  | S n' => pad +:+ repeatString n' pad
  end.

Definition padStart (targetLength : nat) (pad : string) (s : string) : string :=
  repeatString (targetLength - String.length s) pad +:+ s.

(** ** Data *)

(** [types.ts] *)
Record EventSchedule : Type := {
  resourceType : string;
  resourceId : string;
  eventType : string;
  eventHour : Z;
  eventMinute : Z;
  weekdays : list Z;
  holiday : option Z;
}.

Record AWSLambdaEvent : Type := { schedules : list EventSchedule }.

Abbreviation ApiHoliday := (gmap string string).

Record ResultItem : Type := {
  resouceType : string;
  item_resourceId : string;
  item_eventType : string;
  details : string;
}.

(** The listings of [@aws-sdk/client-ec2] and [@aws-sdk/client-lightsail], as
    far as the handler looks into them. Every property is optional there. *)
Module EC2.
Record InstanceState : Type := { Name : option string }.
Record Instance : Type := {
  InstanceId : option string;
  State : option InstanceState;
}.
Record Reservation : Type := { Instances : option (list Instance) }.
Record DescribeInstancesCommandOutput : Type := {
  Reservations : option (list Reservation);
}.
End EC2.

Module Lightsail.
Record InstanceState : Type := { code : option Z; state_name : option string }.
Record Instance : Type := {
  name : option string;
  resourceType : option string;
  state : option InstanceState;
}.
Record GetInstancesCommandOutput : Type := {
  instances : option (list Instance);
}.
End Lightsail.

(** The commands the handler dispatches to change an instance. *)
Inductive Command : Type :=
| StartInstancesCommand (InstanceIds : list string)
| StopInstancesCommand (InstanceIds : list string)
| StartInstanceCommand (instanceName : string)
| StopInstanceCommand (instanceName : string).

Record Response : Type := { status : string }.

(** ** The world the handler runs in

    The clock is read once at the start of an invocation and once more for
    every schedule; [clock n] is the n-th reading. The three remote reads
    (holiday API, EC2 and Lightsail listings) are answered from the world;
    the commands sent and the console output accumulate in it. *)
Record World : Type := {
  clock : nat -> Date.t;
  reads : nat;
  holidayApi : string -> ApiHoliday;
  ec2Listing : EC2.DescribeInstancesCommandOutput;
  lightsailListing : Lightsail.GetInstancesCommandOutput;
  dispatched : list Command;
  console : list (list ResultItem);
}.

Definition M (A : Type) : Type := World -> A * World.

Definition ret {A} (a : A) : M A := fun w => (a, w).

Definition bind {A B} (c : M A) (k : A -> M B) : M B :=
  fun w => let (a, w') := c w in k a w'.

Notation "x <- c ;; k" := (bind c (fun x => k))
  (at level 100, c at next level, right associativity).
Notation "c ;;; k" := (bind c (fun _ => k))
  (at level 100, right associativity).

(** [xs.map(f)] for an effectful callback: elements are visited in index
    order and the results collected in the same order. *)
Fixpoint mapM {A B} (f : A -> M B) (xs : list A) : M (list B) :=
  match xs with
  | [] => ret []
  | x :: xs' => y <- f x ;; ys <- mapM f xs' ;; ret (y :: ys)
  end.

(** [new Date()] *)
Definition newDate : M Date.t := fun w =>
  (clock w (reads w),
   {| clock := clock w; reads := S (reads w); holidayApi := holidayApi w;
      ec2Listing := ec2Listing w; lightsailListing := lightsailListing w;
      dispatched := dispatched w; console := console w |}).

(** [(await axios.get(url)).data] *)
Definition axios_get (url : string) : M ApiHoliday := fun w => (holidayApi w url, w).

(** [await ec2.send(new DescribeInstancesCommand({}))] *)
Definition ec2_describeInstances : M EC2.DescribeInstancesCommandOutput :=
  fun w => (ec2Listing w, w).

(** [await lightsail.send(new GetInstancesCommand({}))] *)
Definition lightsail_getInstances : M Lightsail.GetInstancesCommandOutput :=
  fun w => (lightsailListing w, w).

(** [ec2.send(command)] / [lightsail.send(command)] for a start or stop
    command; the handler does not wait for the outcome. *)
Definition send (command : Command) : M unit := fun w =>
  (tt,
   {| clock := clock w; reads := reads w; holidayApi := holidayApi w;
      ec2Listing := ec2Listing w; lightsailListing := lightsailListing w;
      dispatched := dispatched w ++ [command]; console := console w |}).

(** [console.log(results)] *)
Definition console_log (results : list ResultItem) : M unit := fun w =>
  (tt,
   {| clock := clock w; reads := reads w; holidayApi := holidayApi w;
      ec2Listing := ec2Listing w; lightsailListing := lightsailListing w;
      dispatched := dispatched w; console := console w ++ [results] |}).

(** ** JavaScript operators used by the handler *)

(** [x < y] on numbers that are exact fractions. *)
Definition Qltb (x y : Q) : bool := negb (Qle_bool y x).

(** [xs.includes(x)] *)
Definition includes `{EqDecision A} (xs : list A) (x : A) : bool :=
  bool_decide (x ∈ xs).

(** [Object.keys(o)] *)
Definition Object_keys (o : ApiHoliday) : list string := (map_to_list o).*1.

(** A value placed in a template literal: [undefined] prints as such. *)
Definition templateString (v : option string) : string :=
  match v with
  | Some s => s
  | None => "undefined"
  end.

(** [japaneseWeekday.format(d)]: the long Japanese weekday name of [d] in the
    process time zone. *)
Definition japaneseWeekday_format (d : Date.t) : string :=
  match Date.getDay d with
  | 0 => "日曜日"
  | 1 => "月曜日"
  | 2 => "火曜日"
  | 3 => "水曜日"
  | 4 => "木曜日"
  | 5 => "金曜日"
  | _ => "土曜日"
  end.

(** ** [index.ts] *)

Definition JST_TZ_OFFSET : Z := 9.
Definition CANCEL_EVENT_ON_PUBLIC_HOLIDAY : Z := 1.

(** The texts of the [details] field. *)
Module MESSAGES.
Definition CANCELLED_TIME_OUT_OF_RANGE : string :=
  "対象時間外のため何もしませんでした".
Definition CANCELLED_INSTANCE_ALREADY_RUNNING : string :=
  "インスタンスは既に起動しているため何もしませんでした".
Definition CANCELLED_INSTANCE_ALREADY_STOPPED : string :=
  "インスタンスは既に停止しているため何もしませんでした".
Definition CANCELLED_TODAY_NOT_WORKING_DAY (currentDate : Date.t) : string :=
  "本日は" +:+ japaneseWeekday_format currentDate +:+ "のため何もしませんでした".
Definition CANCELLED_TODAY_IS_HOLIDAY (holidayName : option string) : string :=
  "本日は祝日(" +:+ templateString holidayName +:+ ")のため何もしませんでした".
Definition INSTANCE_START_INSTRUCTED : string :=
  "インスタンス起動の指示をしました".
Definition INSTANCE_STOP_INSTRUCTED : string :=
  "インスタンス停止の指示を行いました".
Definition INSTANCE_NOT_FOUND : string :=
  "インスタンスが見つかりませんでした".
Definition SETTING_MAYBE_INCORRECT : string :=
  "設定が正しくない可能性があります".
End MESSAGES.

Definition createResultItem (schedule : EventSchedule) (details : string) : ResultItem :=
  {| resouceType := resourceType schedule;
     item_resourceId := resourceId schedule;
     item_eventType := eventType schedule;
     details := details |}.

Definition searchEc2Instance (resourceId : string)
    (ec2Result : EC2.DescribeInstancesCommandOutput) : option EC2.Instance :=
  reservations ← EC2.Reservations ec2Result;
  List.find (fun instance => bool_decide (EC2.InstanceId instance = Some resourceId))
    (flat_map (fun reservation => default [] (EC2.Instances reservation)) reservations).

Definition searchLightsailInstance (resourceId : string)
    (lightsailResult : Lightsail.GetInstancesCommandOutput) : option Lightsail.Instance :=
  instances ← Lightsail.instances lightsailResult;
  List.find (fun instance =>
               bool_decide (Lightsail.resourceType instance = Some "Instance")
               && bool_decide (Lightsail.name instance = Some resourceId))
    instances.

Definition startEc2Instance (schedule : EventSchedule)
    (ec2Result : EC2.DescribeInstancesCommandOutput) : M ResultItem :=
  match searchEc2Instance (resourceId schedule) ec2Result with
  | Some targetInstance =>
      if bool_decide (EC2.State targetInstance ≫= EC2.Name = Some "running") then
        ret (createResultItem schedule MESSAGES.CANCELLED_INSTANCE_ALREADY_RUNNING)
      else
        send (StartInstancesCommand [resourceId schedule]) ;;;
        ret (createResultItem schedule MESSAGES.INSTANCE_START_INSTRUCTED)
  | None => ret (createResultItem schedule MESSAGES.INSTANCE_NOT_FOUND)
  end.

Definition stopEc2Instance (schedule : EventSchedule)
    (ec2Result : EC2.DescribeInstancesCommandOutput) : M ResultItem :=
  match searchEc2Instance (resourceId schedule) ec2Result with
  | Some targetInstance =>
      if bool_decide (EC2.State targetInstance ≫= EC2.Name = Some "stopped") then
        ret (createResultItem schedule MESSAGES.CANCELLED_INSTANCE_ALREADY_STOPPED)
      else
        send (StopInstancesCommand [resourceId schedule]) ;;;
        ret (createResultItem schedule MESSAGES.INSTANCE_STOP_INSTRUCTED)
  | None => ret (createResultItem schedule MESSAGES.INSTANCE_NOT_FOUND)
  end.

Definition startLightsailInstance (schedule : EventSchedule)
    (lightsailResult : Lightsail.GetInstancesCommandOutput) : M ResultItem :=
  match searchLightsailInstance (resourceId schedule) lightsailResult with
  | Some targetInstance =>
      if bool_decide (Lightsail.state targetInstance ≫= Lightsail.state_name = Some "running") then
        ret (createResultItem schedule MESSAGES.CANCELLED_INSTANCE_ALREADY_RUNNING)
      else
        send (StartInstanceCommand (resourceId schedule)) ;;;
        ret (createResultItem schedule MESSAGES.INSTANCE_START_INSTRUCTED)
  | None => ret (createResultItem schedule MESSAGES.INSTANCE_NOT_FOUND)
  end.

Definition stopLightsailInstance (schedule : EventSchedule)
    (lightsailResult : Lightsail.GetInstancesCommandOutput) : M ResultItem :=
  match searchLightsailInstance (resourceId schedule) lightsailResult with
  | Some targetInstance =>
      if bool_decide (Lightsail.state targetInstance ≫= Lightsail.state_name = Some "stopped") then
        ret (createResultItem schedule MESSAGES.CANCELLED_INSTANCE_ALREADY_STOPPED)
      else
        send (StopInstanceCommand (resourceId schedule)) ;;;
        ret (createResultItem schedule MESSAGES.INSTANCE_STOP_INSTRUCTED)
  | None => ret (createResultItem schedule MESSAGES.INSTANCE_NOT_FOUND)
  end.

(** What the arrow function given to [event.schedules.map] sees of the
    handler's local constants. *)
Record Scope : Type := {
  currentDate : Date.t;
  currentDateStr : string;
  holidays : ApiHoliday;
  todayIsHoliday : bool;
  ec2Result : EC2.DescribeInstancesCommandOutput;
  lightsailResult : Lightsail.GetInstancesCommandOutput;
}.

Section Handler.

(** Offset of the process time zone: wall clock minus UTC, in ms. *)
Variable tzOffsetMs : Z.

(** [(currentDate.getTime() - eventDate.getTime()) / 1000] *)
Definition diffSecond (currentDate eventDate : Date.t) : Q :=
  (inject_Z (Date.getTime tzOffsetMs currentDate - Date.getTime tzOffsetMs eventDate)
   / inject_Z 1000)%Q.

(** [eventDate] of a schedule, from the clock reading [today]. The fields
    are taken as they are, without a check against 0..23 and 0..59; the
    sum is exact here, as it is in the source for [moderateTime] fields. *)
Definition eventDateOf (today : Date.t) (schedule : EventSchedule) : Date.t :=
  Date.setHours today (eventHour schedule + JST_TZ_OFFSET) (eventMinute schedule) 0 0.

(** The body of [event.schedules.map((schedule) => ...)]. *)
Definition scheduleCallback (scope : Scope) (schedule : EventSchedule) : M ResultItem :=
  today <- newDate ;;
  let eventDate := eventDateOf today schedule in
  let diffSecond := diffSecond (currentDate scope) eventDate in
  if Qltb diffSecond (inject_Z 0) || Qltb (inject_Z 300) diffSecond then
    ret (createResultItem schedule MESSAGES.CANCELLED_TIME_OUT_OF_RANGE)
  else if negb (includes (weekdays schedule) (Date.getDay (currentDate scope))) then
    ret (createResultItem schedule
           (MESSAGES.CANCELLED_TODAY_NOT_WORKING_DAY (currentDate scope)))
  else if todayIsHoliday scope
          && bool_decide (holiday schedule = Some CANCEL_EVENT_ON_PUBLIC_HOLIDAY) then
    ret (createResultItem schedule
           (MESSAGES.CANCELLED_TODAY_IS_HOLIDAY (holidays scope !! currentDateStr scope)))
  else
    let resourceEventType := resourceType schedule +:+ eventType schedule in
    if String.eqb resourceEventType "ec2start" then
      startEc2Instance schedule (ec2Result scope)
    else if String.eqb resourceEventType "ec2stop" then
      stopEc2Instance schedule (ec2Result scope)
    else if String.eqb resourceEventType "lightsailstart" then
      startLightsailInstance schedule (lightsailResult scope)
    else if String.eqb resourceEventType "lightsailstop" then
      stopLightsailInstance schedule (lightsailResult scope)
    else
      ret (createResultItem schedule MESSAGES.SETTING_MAYBE_INCORRECT).

(** The handler up to the point where [results] is computed. *)
Definition handlerScope : M Scope :=
  now <- newDate ;;
  let currentDate :=
    Date.setHours now (Date.getHours now + JST_TZ_OFFSET) (Date.getMinutes now) 0 0 in
  let currentDateStr :=
    numberToString (Date.getFullYear currentDate)
    +:+ "-" +:+ padStart 2 "0" (numberToString (Date.getMonth currentDate + 1))
    +:+ "-" +:+ padStart 2 "0" (numberToString (Date.getDate currentDate)) in
  let apiHolidayUrl :=
    "https://holidays-jp.github.io/api/v1/"
    +:+ numberToString (Date.getFullYear currentDate) +:+ "/date.json" in
  holidays <- axios_get apiHolidayUrl ;;
  let todayIsHoliday := includes (Object_keys holidays) currentDateStr in
  ec2Result <- ec2_describeInstances ;;
  lightsailResult <- lightsail_getInstances ;;
  ret {| currentDate := currentDate; currentDateStr := currentDateStr;
         holidays := holidays; todayIsHoliday := todayIsHoliday;
         ec2Result := ec2Result; lightsailResult := lightsailResult |}.

(** [const results = event.schedules.map(...)] *)
Definition handlerResults (event : AWSLambdaEvent) : M (list ResultItem) :=
  scope <- handlerScope ;;
  mapM (scheduleCallback scope) (schedules event).

Definition handler (event : AWSLambdaEvent) : M Response :=
  results <- handlerResults event ;;
  console_log results ;;;
  ret {| status := "success" |}.

End Handler.

(** ** The components of the evaluation, as conditions on the handler's data *)

(** The world after one more clock reading. *)
Definition tick (w : World) : World := snd (newDate w).

(** Time Window Matcher: the first [if] of the callback does not return. *)
Definition timeWindowMatches (tzOffsetMs : Z) (scope : Scope) (today : Date.t)
    (schedule : EventSchedule) : bool :=
  let d := diffSecond tzOffsetMs (currentDate scope) (eventDateOf today schedule) in
  negb (Qltb d (inject_Z 0) || Qltb (inject_Z 300) d).

(** Weekday Filter: the second [if] does not return. *)
Definition weekdayAllowed (scope : Scope) (schedule : EventSchedule) : bool :=
  includes (weekdays schedule) (Date.getDay (currentDate scope)).

(** Holiday Guard: the third [if] returns. *)
Definition holidayCancelled (scope : Scope) (schedule : EventSchedule) : bool :=
  todayIsHoliday scope
  && bool_decide (holiday schedule = Some CANCEL_EVENT_ON_PUBLIC_HOLIDAY).

(** The [switch] on [resourceType + eventType] with the [return] after it. *)
Definition switchResourceEventType (scope : Scope) (schedule : EventSchedule) : M ResultItem :=
  let resourceEventType := resourceType schedule +:+ eventType schedule in
  if String.eqb resourceEventType "ec2start" then
    startEc2Instance schedule (ec2Result scope)
  else if String.eqb resourceEventType "ec2stop" then
    stopEc2Instance schedule (ec2Result scope)
  else if String.eqb resourceEventType "lightsailstart" then
    startLightsailInstance schedule (lightsailResult scope)
  else if String.eqb resourceEventType "lightsailstop" then
    stopLightsailInstance schedule (lightsailResult scope)
  else
    ret (createResultItem schedule MESSAGES.SETTING_MAYBE_INCORRECT).

(** The world after [command] has been sent. *)
Definition afterSend (command : Command) (w : World) : World := snd (send command w).

(** ** The Action Decider's state table, in the words of the specification *)

Inductive ResourceKind : Type := KindEc2 | KindLightsail.
Inductive Action : Type := Start | Stop.
Inductive ResourceStatus : Type := Running | Stopped | Other | NotFound.
Inductive Reason : Type := AlreadyInTargetState | ResourceNotFound.
Inductive Decision : Type := Fire | Skip (reason : Reason).

Definition actionDecider (status : ResourceStatus) (action : Action) : Decision :=
  match status, action with
  | Running, Start => Skip AlreadyInTargetState
  | Running, Stop => Fire
  | Stopped, Start => Fire
  | Stopped, Stop => Skip AlreadyInTargetState
  | Other, _ => Fire
  | NotFound, _ => Skip ResourceNotFound
  end.

(** How the table's vocabulary is spelled in the handler's data. *)
Definition kindName (kind : ResourceKind) : string :=
  match kind with KindEc2 => "ec2" | KindLightsail => "lightsail" end.

Definition actionName (action : Action) : string :=
  match action with Start => "start" | Stop => "stop" end.

Definition statusOfName (stateName : option string) : ResourceStatus :=
  if bool_decide (stateName = Some "running") then Running
  else if bool_decide (stateName = Some "stopped") then Stopped
  else Other.

(** The status of a resource in the listings the handler fetched. *)
Definition locate (scope : Scope) (kind : ResourceKind) (resourceId : string) : ResourceStatus :=
  match kind with
  | KindEc2 =>
      match searchEc2Instance resourceId (ec2Result scope) with
      | Some instance => statusOfName (EC2.State instance ≫= EC2.Name)
      | None => NotFound
      end
  | KindLightsail =>
      match searchLightsailInstance resourceId (lightsailResult scope) with
      | Some instance => statusOfName (Lightsail.state instance ≫= Lightsail.state_name)
      | None => NotFound
      end
  end.

Definition commandOf (kind : ResourceKind) (action : Action) (resourceId : string) : Command :=
  match kind, action with
  | KindEc2, Start => StartInstancesCommand [resourceId]
  | KindEc2, Stop => StopInstancesCommand [resourceId]
  | KindLightsail, Start => StartInstanceCommand resourceId
  | KindLightsail, Stop => StopInstanceCommand resourceId
  end.

(** What a decision looks like from outside: the item returned and the
    world left behind. A Fire sends the command, a Skip sends nothing. *)
Definition enact (kind : ResourceKind) (action : Action) (schedule : EventSchedule)
    (decision : Decision) (w : World) : ResultItem * World :=
  match decision with
  | Fire =>
      (createResultItem schedule
         match action with
         | Start => MESSAGES.INSTANCE_START_INSTRUCTED
         | Stop => MESSAGES.INSTANCE_STOP_INSTRUCTED
         end,
       afterSend (commandOf kind action (resourceId schedule)) w)
  | Skip AlreadyInTargetState =>
      (createResultItem schedule
         match action with
         | Start => MESSAGES.CANCELLED_INSTANCE_ALREADY_RUNNING
         | Stop => MESSAGES.CANCELLED_INSTANCE_ALREADY_STOPPED
         end,
       w)
  | Skip ResourceNotFound =>
      (createResultItem schedule MESSAGES.INSTANCE_NOT_FOUND, w)
  end.

(** ** Listings with nothing in them *)

(** An EC2 listing without [Reservations], or whose reservations have no
    [Instances] or an empty one. *)
Definition ec2WithoutInstances (ec2Result : EC2.DescribeInstancesCommandOutput) : Prop :=
  match EC2.Reservations ec2Result with
  | None => True
  | Some reservations =>
      forall reservation, reservation ∈ reservations ->
        EC2.Instances reservation = None \/ EC2.Instances reservation = Some []
  end.

(** A Lightsail listing without [instances], or with an empty one. *)
Definition lightsailWithoutInstances
    (lightsailResult : Lightsail.GetInstancesCommandOutput) : Prop :=
  Lightsail.instances lightsailResult = None
  \/ Lightsail.instances lightsailResult = Some [].

(** ** Two runs of the handler *)

(** Two worlds in the middle of an invocation that have read the clock
    equally often, have sent the same commands, and whose clocks will from
    now on show the same calendar day at every reading. *)
Definition sameDaysAhead (w1 w2 : World) : Prop :=
  reads w1 = reads w2
  /\ dispatched w1 = dispatched w2
  /\ forall n, (reads w1 <= n)%nat -> Date.day (clock w1 n) = Date.day (clock w2 n).

(** ** Reading the commands sent *)

(** The instances a command is addressed to: [InstanceIds] of an EC2
    command, [instanceName] of a Lightsail command. *)
Definition commandTargets (command : Command) : list string :=
  match command with
  | StartInstancesCommand InstanceIds => InstanceIds
  | StopInstancesCommand InstanceIds => InstanceIds
  | StartInstanceCommand instanceName => [instanceName]
  | StopInstanceCommand instanceName => [instanceName]
  end.

(** The handler's constants, had the two listings been others. *)
Definition withListings (scope : Scope) (ec2Result' : EC2.DescribeInstancesCommandOutput)
    (lightsailResult' : Lightsail.GetInstancesCommandOutput) : Scope :=
  {| currentDate := currentDate scope; currentDateStr := currentDateStr scope;
     holidays := holidays scope; todayIsHoliday := todayIsHoliday scope;
     ec2Result := ec2Result'; lightsailResult := lightsailResult' |}.

(** ** Hours and minutes of ordinary size *)

(** Fields for which [setHours] computes exactly in doubles and the target
    instant stays a valid [Date]: at most a million hours and a million
    minutes either way. The hours 0..23 and the minutes 0..59 are well
    inside, and so are the values just outside them (24, 60, -1). *)
Definition moderateTime (schedule : EventSchedule) : Prop :=
  -1000000 <= eventHour schedule <= 1000000
  /\ -1000000 <= eventMinute schedule <= 1000000.

(** ** Sample data *)

Module Sample.

(** Asia/Tokyo. *)
Definition tz : Z := 9 * Date.msPerHour.

Definition ec2 : EC2.DescribeInstancesCommandOutput :=
  {| EC2.Reservations := Some [
       {| EC2.Instances := Some [
            {| EC2.InstanceId := Some "i-1";
               EC2.State := Some {| EC2.Name := Some "stopped" |} |} ] |};
       {| EC2.Instances := None |};
       {| EC2.Instances := Some [
            {| EC2.InstanceId := Some "i-2";
               EC2.State := Some {| EC2.Name := Some "running" |} |};
            {| EC2.InstanceId := Some "i-3";
               EC2.State := Some {| EC2.Name := Some "pending" |} |} ] |} ] |}.

Definition lightsail : Lightsail.GetInstancesCommandOutput :=
  {| Lightsail.instances := Some [
       {| Lightsail.name := Some "web";
          Lightsail.resourceType := Some "StaticIp";
          Lightsail.state := None |};
       {| Lightsail.name := Some "web";
          Lightsail.resourceType := Some "Instance";
          Lightsail.state :=
            Some {| Lightsail.code := Some 16; Lightsail.state_name := Some "running" |} |} ] |}.

(** The holidays of January 2024. *)
Definition calendar : ApiHoliday :=
  {[ "2024-01-01" := "元日"; "2024-01-08" := "成人の日" ]}.

(** A world whose clock stands still at [now]. *)
Definition worldAt (now : Date.t) : World :=
  {| clock := fun _ => now; reads := 0; holidayApi := fun _ => calendar;
     ec2Listing := ec2; lightsailListing := lightsail;
     dispatched := []; console := [] |}.

(** A world whose clock shows [now] first and [later] from then on. *)
Definition worldAtThen (now later : Date.t) : World :=
  {| clock := fun n => match n with O => now | S _ => later end;
     reads := 0; holidayApi := fun _ => calendar;
     ec2Listing := ec2; lightsailListing := lightsail;
     dispatched := []; console := [] |}.

Definition rule (kind id action : string) (hour minute : Z) (days : list Z)
    (policy : option Z) : EventSchedule :=
  {| resourceType := kind; resourceId := id; eventType := action;
     eventHour := hour; eventMinute := minute; weekdays := days; holiday := policy |}.

Definition weekdaysMonToFri : list Z := [1; 2; 3; 4; 5].

(** Start [i-1] at 09:00 from Monday to Friday, holidays or not. *)
Definition startAtNine : EventSchedule :=
  rule "ec2" "i-1" "start" 9 0 weekdaysMonToFri (Some 0).

(** The handler's constants when the invocation starts at [now], and the
    world in which the schedules are then evaluated. *)
Definition scopeAt (now : Date.t) : Scope := fst (handlerScope (worldAt now)).
Definition worldAfterFetch (now : Date.t) : World := snd (handlerScope (worldAt now)).

(** Wednesday 10 January 2024, 09:02:30. *)
Definition wednesdayMorning : Date.t := Date.make 2024 1 10 9 2 30 0.

(** A kind and an action that are not supported, but concatenate to the
    key of a supported pair. *)
Definition splitKey : EventSchedule :=
  rule "ec2s" "i-1" "tart" 9 0 weekdaysMonToFri (Some 0).

(** An unsupported kind. *)
Definition unknownKind : EventSchedule :=
  rule "rds" "db-1" "start" 9 0 weekdaysMonToFri (Some 0).

(** Sunday 7 January and Monday 8 January 2024 (Coming of Age Day), 09:02:30. *)
Definition sundayMorning : Date.t := Date.make 2024 1 7 9 2 30 0.
Definition holidayMondayMorning : Date.t := Date.make 2024 1 8 9 2 30 0.

(** As [startAtNine], but cancelled on public holidays. *)
Definition startAtNineUnlessHoliday : EventSchedule :=
  rule "ec2" "i-1" "start" 9 0 weekdaysMonToFri (Some CANCEL_EVENT_ON_PUBLIC_HOLIDAY).

(** Tuesday to Friday only, cancelled on public holidays. *)
Definition startTueToFriUnlessHoliday : EventSchedule :=
  rule "ec2" "i-1" "start" 9 0 [2; 3; 4; 5] (Some CANCEL_EVENT_ON_PUBLIC_HOLIDAY).

(** Listings as an account without instances returns them. *)
Definition ec2Bare : EC2.DescribeInstancesCommandOutput :=
  {| EC2.Reservations := None |}.
Definition ec2EmptyReservations : EC2.DescribeInstancesCommandOutput :=
  {| EC2.Reservations := Some [ {| EC2.Instances := None |};
                                {| EC2.Instances := Some [] |} ] |}.
Definition lightsailBare : Lightsail.GetInstancesCommandOutput :=
  {| Lightsail.instances := None |}.

Definition bareWorldAt (now : Date.t) : World :=
  {| clock := fun _ => now; reads := 0; holidayApi := fun _ => calendar;
     ec2Listing := ec2EmptyReservations; lightsailListing := lightsailBare;
     dispatched := []; console := [] |}.

(** Half a minute before and one second after midnight. *)
Definition beforeMidnight : Date.t := Date.make 2024 1 10 23 59 30 0.
Definition afterMidnight : Date.t := Date.make 2024 1 11 0 0 1 0.

Definition startBeforeMidnight : EventSchedule :=
  rule "ec2" "i-1" "start" 23 59 weekdaysMonToFri (Some 0).

End Sample.

(** ** Basic facts *)

Lemma Qltb_lt (x y : Q) : Qltb x y = true <-> (x < y)%Q.
Proof.
  unfold Qltb. rewrite negb_true_iff, <- not_true_iff_false, Qle_bool_iff.
  split; [apply Qnot_le_lt | apply Qlt_not_le].
Qed.

Lemma Qltb_ge (x y : Q) : Qltb x y = false <-> (y <= x)%Q.
Proof.
  unfold Qltb. rewrite negb_false_iff. apply Qle_bool_iff.
Qed.

Lemma diffSecond_ms (tz : Z) (c e : Date.t) :
  (diffSecond tz c e == (c - e) # 1000)%Q.
Proof.
  unfold diffSecond, Date.getTime, Qeq, Qdiv, Qmult, Qinv, inject_Z. simpl. lia.
Qed.

Lemma diffSecond_neg (tz : Z) (c e : Date.t) :
  (diffSecond tz c e < 0)%Q <-> c < e.
Proof.
  rewrite diffSecond_ms. unfold Qlt. simpl. lia.
Qed.

Lemma diffSecond_nonneg (tz : Z) (c e : Date.t) :
  (0 <= diffSecond tz c e)%Q <-> e <= c.
Proof.
  rewrite diffSecond_ms. unfold Qle. simpl. lia.
Qed.

Lemma diffSecond_le_300 (tz : Z) (c e : Date.t) :
  (diffSecond tz c e <= 300)%Q <-> c - e <= 300000.
Proof.
  rewrite diffSecond_ms. unfold Qle. simpl. lia.
Qed.

Lemma timeWindowMatches_iff (tz : Z) (scope : Scope) (today : Date.t) (schedule : EventSchedule) :
  timeWindowMatches tz scope today schedule = true <->
  (0 <= diffSecond tz (currentDate scope) (eventDateOf today schedule)
   /\ diffSecond tz (currentDate scope) (eventDateOf today schedule) <= 300)%Q.
Proof.
  unfold timeWindowMatches. cbv zeta.
  rewrite negb_true_iff, orb_false_iff, !Qltb_ge. reflexivity.
Qed.

Lemma scheduleCallback_eq (tz : Z) (scope : Scope) (schedule : EventSchedule) (w : World) :
  scheduleCallback tz scope schedule w =
  if negb (timeWindowMatches tz scope (clock w (reads w)) schedule) then
    (createResultItem schedule MESSAGES.CANCELLED_TIME_OUT_OF_RANGE, tick w)
  else if negb (weekdayAllowed scope schedule) then
    (createResultItem schedule
       (MESSAGES.CANCELLED_TODAY_NOT_WORKING_DAY (currentDate scope)), tick w)
  else if holidayCancelled scope schedule then
    (createResultItem schedule
       (MESSAGES.CANCELLED_TODAY_IS_HOLIDAY (holidays scope !! currentDateStr scope)), tick w)
  else switchResourceEventType scope schedule (tick w).
Proof.
  unfold scheduleCallback, timeWindowMatches, weekdayAllowed, holidayCancelled,
    switchResourceEventType, bind, tick.
  cbn [newDate fst snd]. cbv zeta. rewrite negb_involutive.
  repeat match goal with |- context [if ?b then _ else _] => destruct b end; reflexivity.
Qed.

(** The [details] the [switch] can produce. *)
Lemma switchResourceEventType_result (scope : Scope) (schedule : EventSchedule) (w : World) :
  exists msg w',
    switchResourceEventType scope schedule w = (createResultItem schedule msg, w')
    /\ In msg [MESSAGES.CANCELLED_INSTANCE_ALREADY_RUNNING;
               MESSAGES.CANCELLED_INSTANCE_ALREADY_STOPPED;
               MESSAGES.INSTANCE_START_INSTRUCTED;
               MESSAGES.INSTANCE_STOP_INSTRUCTED;
               MESSAGES.INSTANCE_NOT_FOUND;
               MESSAGES.SETTING_MAYBE_INCORRECT].
Proof.
  unfold switchResourceEventType, startEc2Instance, stopEc2Instance,
    startLightsailInstance, stopLightsailInstance, bind, ret, send.
  cbv zeta.
  repeat match goal with
         | |- context [if ?b then _ else _] => destruct b
         | |- context [match ?o with Some _ => _ | None => _ end] => destruct o
         end;
    eexists; eexists; (split; [reflexivity | simpl; tauto]).
Qed.

(** Every return of the callback is a [createResultItem] of its schedule. *)
Lemma scheduleCallback_item (tz : Z) (scope : Scope) (schedule : EventSchedule) (w : World) :
  exists msg, fst (scheduleCallback tz scope schedule w) = createResultItem schedule msg.
Proof.
  rewrite scheduleCallback_eq.
  repeat match goal with |- context [if ?b then _ else _] => destruct b end;
    try (eexists; reflexivity).
  destruct (switchResourceEventType_result scope schedule (tick w)) as (msg & w' & -> & _).
  eexists; reflexivity.
Qed.

Ltac message_neq H :=
  unfold MESSAGES.CANCELLED_TIME_OUT_OF_RANGE, MESSAGES.CANCELLED_INSTANCE_ALREADY_RUNNING,
    MESSAGES.CANCELLED_INSTANCE_ALREADY_STOPPED, MESSAGES.CANCELLED_TODAY_NOT_WORKING_DAY,
    MESSAGES.CANCELLED_TODAY_IS_HOLIDAY, MESSAGES.INSTANCE_START_INSTRUCTED,
    MESSAGES.INSTANCE_STOP_INSTRUCTED, MESSAGES.INSTANCE_NOT_FOUND,
    MESSAGES.SETTING_MAYBE_INCORRECT in H;
  cbn [String.append] in H; discriminate H.

(** The [switch] never produces one of the three gate messages. *)
Lemma switch_details_not_gate (scope : Scope) (schedule : EventSchedule) (w : World) :
  let msg := details (fst (switchResourceEventType scope schedule w)) in
  msg <> MESSAGES.CANCELLED_TIME_OUT_OF_RANGE
  /\ (forall d, msg <> MESSAGES.CANCELLED_TODAY_NOT_WORKING_DAY d)
  /\ (forall n, msg <> MESSAGES.CANCELLED_TODAY_IS_HOLIDAY n).
Proof.
  destruct (switchResourceEventType_result scope schedule w) as (msg & w' & -> & Hin).
  cbn [fst details createResultItem In] in *.
  split; [| split]; [intros Heq | intros d Heq | intros n Heq]; rewrite Heq in Hin;
    repeat (destruct Hin as [Hin | Hin]; [message_neq Hin |]); exact Hin.
Qed.

(** The long weekday names. *)
Lemma japaneseWeekday_format_cases (d : Date.t) :
  In (japaneseWeekday_format d)
     ["日曜日"; "月曜日"; "火曜日"; "水曜日"; "木曜日"; "金曜日"; "土曜日"].
Proof.
  unfold japaneseWeekday_format. generalize (Date.getDay d). intros z.
  destruct z as [|p|p]; [simpl; tauto | | simpl; tauto].
  do 3 (try destruct p as [p|p|]); simpl; tauto.
Qed.

Lemma weekday_message_not_holiday (d : Date.t) (n : option string) :
  MESSAGES.CANCELLED_TODAY_NOT_WORKING_DAY d <> MESSAGES.CANCELLED_TODAY_IS_HOLIDAY n.
Proof.
  unfold MESSAGES.CANCELLED_TODAY_NOT_WORKING_DAY, MESSAGES.CANCELLED_TODAY_IS_HOLIDAY.
  pose proof (japaneseWeekday_format_cases d) as Hin.
  generalize dependent (japaneseWeekday_format d). intros s Hin.
  cbn [In] in Hin.
  repeat (destruct Hin as [<- | Hin]; [cbn [String.append]; discriminate |]).
  destruct Hin.
Qed.

Lemma weekday_message_not_out (d : Date.t) :
  MESSAGES.CANCELLED_TODAY_NOT_WORKING_DAY d <> MESSAGES.CANCELLED_TIME_OUT_OF_RANGE.
Proof. intros H. message_neq H. Qed.

Lemma holiday_message_not_out (n : option string) :
  MESSAGES.CANCELLED_TODAY_IS_HOLIDAY n <> MESSAGES.CANCELLED_TIME_OUT_OF_RANGE.
Proof. intros H. message_neq H. Qed.

(** On one calendar day the difference is a whole number of minutes: the
    minutes between the wall-clock minute of the first reading and the
    schedule's hour and minute. *)
Lemma diffSecond_same_day (tz : Z) (now today : Date.t) (schedule : EventSchedule) :
  Date.day today = Date.day now ->
  (diffSecond tz
     (Date.setHours now (Date.getHours now + JST_TZ_OFFSET) (Date.getMinutes now) 0 0)
     (eventDateOf today schedule)
   == inject_Z (60 * (60 * (Date.getHours now - eventHour schedule)
                      + (Date.getMinutes now - eventMinute schedule))))%Q.
Proof.
  intros Hday. rewrite diffSecond_ms.
  unfold eventDateOf, Date.setHours, Date.startOfDay. rewrite Hday.
  unfold Qeq, inject_Z, Date.msPerHour, Date.msPerMinute, Date.msPerSecond, JST_TZ_OFFSET.
  cbn [Qnum Qden]. lia.
Qed.

(** The current date of the handler is the first clock reading, moved on by
    nine hours and cut to the minute. *)
Lemma handlerScope_currentDate (w : World) :
  currentDate (fst (handlerScope w))
  = Date.setHours (clock w (reads w))
      (Date.getHours (clock w (reads w)) + JST_TZ_OFFSET)
      (Date.getMinutes (clock w (reads w))) 0 0.
Proof. reflexivity. Qed.

(** Hence, as long as the schedule is reached on the calendar day on which
    the invocation began, the window is open from the schedule's minute to
    the fifth minute after it, both included. *)
Lemma timeWindowMatches_minutes (tz : Z) (w : World) (today : Date.t)
    (schedule : EventSchedule) :
  Date.day today = Date.day (clock w (reads w)) ->
  timeWindowMatches tz (fst (handlerScope w)) today schedule = true
  <-> 0 <= 60 * (Date.getHours (clock w (reads w)) - eventHour schedule)
           + (Date.getMinutes (clock w (reads w)) - eventMinute schedule) <= 5.
Proof.
  intros Hday. rewrite timeWindowMatches_iff, handlerScope_currentDate.
  rewrite (diffSecond_same_day tz _ _ schedule Hday).
  unfold Qle, inject_Z. cbn [Qnum Qden]. lia.
Qed.

(** * The claims *)

(** ** C1: the time window *)

(** C1, as stated, fails: at 09:05 a schedule for 09:00 is exactly 300
    seconds old, and the handler still lets it through and starts the
    instance. *)
Lemma time_window_300_matches :
  let w := Sample.worldAt (Date.make 2024 1 10 9 5 30 0) in
  let scope := fst (handlerScope w) in
  let d := diffSecond Sample.tz (currentDate scope)
             (eventDateOf (clock w 1%nat) Sample.startAtNine) in
  (d == 300)%Q
  /\ ~ (0 <= d /\ d < 300)%Q
  /\ timeWindowMatches Sample.tz scope (clock w 1%nat) Sample.startAtNine = true
  /\ fst (scheduleCallback Sample.tz scope Sample.startAtNine (snd (handlerScope w)))
     = createResultItem Sample.startAtNine MESSAGES.INSTANCE_START_INSTRUCTED.
Proof.
  cbv zeta. split; [| split; [| split]].
  - vm_compute. reflexivity.
  - intros [_ H]. vm_compute in H. discriminate H.
  - vm_compute. reflexivity.
  - vm_compute. reflexivity.
Qed.

(** C1, amended: the Time Window Matcher matches iff
    0 <= now - targetInstant <= 300 seconds, both ends included, and the
    callback returns the out-of-window item, sending nothing, exactly when it
    does not match. *)
Theorem time_window_closed_interval (tz : Z) (scope : Scope) (schedule : EventSchedule)
    (w : World) :
  let d := diffSecond tz (currentDate scope) (eventDateOf (clock w (reads w)) schedule) in
  (timeWindowMatches tz scope (clock w (reads w)) schedule = true
   <-> (0 <= d /\ d <= 300)%Q)
  /\ (scheduleCallback tz scope schedule w
      = (createResultItem schedule MESSAGES.CANCELLED_TIME_OUT_OF_RANGE, tick w)
      <-> ~ (0 <= d /\ d <= 300)%Q)
  /\ (details (fst (scheduleCallback tz scope schedule w))
      = MESSAGES.CANCELLED_TIME_OUT_OF_RANGE
      <-> ~ (0 <= d /\ d <= 300)%Q).
Proof.
  cbv zeta. rewrite <- timeWindowMatches_iff. split; [reflexivity |].
  rewrite scheduleCallback_eq.
  destruct (timeWindowMatches tz scope (clock w (reads w)) schedule); cbn [negb].
  - assert (Hne : details
                    (fst (if negb (weekdayAllowed scope schedule)
                          then (createResultItem schedule
                                  (MESSAGES.CANCELLED_TODAY_NOT_WORKING_DAY (currentDate scope)),
                                tick w)
                          else if holidayCancelled scope schedule
                               then (createResultItem schedule
                                       (MESSAGES.CANCELLED_TODAY_IS_HOLIDAY
                                          (holidays scope !! currentDateStr scope)), tick w)
                               else switchResourceEventType scope schedule (tick w)))
                  <> MESSAGES.CANCELLED_TIME_OUT_OF_RANGE).
    { destruct (negb (weekdayAllowed scope schedule)); [apply weekday_message_not_out |].
      destruct (holidayCancelled scope schedule); [apply holiday_message_not_out |].
      apply switch_details_not_gate. }
    split; (split; [intros Heq; exfalso | intros Hn; exfalso; apply Hn; reflexivity]).
    + apply Hne. rewrite Heq. reflexivity.
    + apply Hne, Heq.
  - split; (split; [intros _ Hc; discriminate Hc | reflexivity]).
Qed.

(** ** C2: the state table *)

Lemma statusOfName_running (n : option string) :
  statusOfName n = Running <-> n = Some "running".
Proof.
  unfold statusOfName. repeat case_bool_decide; split; congruence.
Qed.

Lemma statusOfName_stopped (n : option string) :
  statusOfName n = Stopped <-> n = Some "stopped".
Proof.
  unfold statusOfName. repeat case_bool_decide; split; congruence.
Qed.

Lemma statusOfName_found (n : option string) : statusOfName n <> NotFound.
Proof.
  unfold statusOfName. repeat case_bool_decide; discriminate.
Qed.

(** The [switch], for a supported kind and action, enacts the table. *)
Lemma switch_enacts_table (scope : Scope) (schedule : EventSchedule) (w : World)
    (kind : ResourceKind) (action : Action) :
  resourceType schedule = kindName kind ->
  eventType schedule = actionName action ->
  switchResourceEventType scope schedule w
  = enact kind action schedule
      (actionDecider (locate scope kind (resourceId schedule)) action) w.
Proof.
  intros Hkind Haction. unfold switchResourceEventType. cbv zeta.
  rewrite Hkind, Haction.
  destruct kind, action; cbn [kindName actionName locate];
    repeat match goal with
           | |- context [String.eqb ?a ?b] =>
               let v := eval vm_compute in (String.eqb a b) in
               change (String.eqb a b) with v
           end;
    cbv iota;
    unfold startEc2Instance, stopEc2Instance, startLightsailInstance, stopLightsailInstance.
  all: match goal with
       | |- context [searchEc2Instance ?r ?e] => destruct (searchEc2Instance r e) as [i|]
       | |- context [searchLightsailInstance ?r ?e] =>
           destruct (searchLightsailInstance r e) as [i|]
       end; [| reflexivity].
  all: match goal with
       | |- context [statusOfName ?n] =>
           pose proof (statusOfName_running n); pose proof (statusOfName_stopped n);
           destruct (statusOfName n) eqn:Hs
       end.
  all: try (exfalso; exact (statusOfName_found _ Hs)).
  all: repeat case_bool_decide; try reflexivity; intuition congruence.
Qed.

(** C2: a rule that passes the three gates and names a supported kind and
    action is decided by the state table: Start on Running and Stop on
    Stopped are skipped as already in the target state, every other status of
    a located resource fires the command, and a resource that is not in the
    listing is skipped as not found, whichever action was asked for. *)
Theorem action_decider_state_table (tz : Z) (scope : Scope) (schedule : EventSchedule)
    (w : World) (kind : ResourceKind) (action : Action) :
  resourceType schedule = kindName kind ->
  eventType schedule = actionName action ->
  timeWindowMatches tz scope (clock w (reads w)) schedule = true ->
  weekdayAllowed scope schedule = true ->
  holidayCancelled scope schedule = false ->
  scheduleCallback tz scope schedule w
  = enact kind action schedule
      (actionDecider (locate scope kind (resourceId schedule)) action) (tick w).
Proof.
  intros Hkind Haction Hwindow Hweekday Hholiday.
  rewrite scheduleCallback_eq, Hwindow, Hweekday, Hholiday. cbn [negb].
  apply switch_enacts_table; assumption.
Qed.

Lemma action_decider_state_table_witness :
  scheduleCallback Sample.tz (Sample.scopeAt Sample.wednesdayMorning) Sample.startAtNine
    (Sample.worldAfterFetch Sample.wednesdayMorning)
  = enact KindEc2 Start Sample.startAtNine
      (actionDecider
         (locate (Sample.scopeAt Sample.wednesdayMorning) KindEc2
            (resourceId Sample.startAtNine)) Start)
      (tick (Sample.worldAfterFetch Sample.wednesdayMorning)).
Proof.
  apply (action_decider_state_table Sample.tz (Sample.scopeAt Sample.wednesdayMorning)
           Sample.startAtNine (Sample.worldAfterFetch Sample.wednesdayMorning)
           KindEc2 Start);
    vm_compute; reflexivity.
Defined.

(** The table at work on the sample listings: the stopped [i-1] is started,
    the running [i-2] is left alone, the pending [i-3] is started and
    stopped alike, and [i-9] is not there. *)
Example state_table_on_sample :
  let scope := Sample.scopeAt Sample.wednesdayMorning in
  actionDecider (locate scope KindEc2 "i-1") Start = Fire
  /\ actionDecider (locate scope KindEc2 "i-2") Start = Skip AlreadyInTargetState
  /\ actionDecider (locate scope KindEc2 "i-3") Start = Fire
  /\ actionDecider (locate scope KindEc2 "i-3") Stop = Fire
  /\ actionDecider (locate scope KindEc2 "i-9") Stop = Skip ResourceNotFound
  /\ actionDecider (locate scope KindLightsail "web") Stop = Fire
  /\ actionDecider (locate scope KindLightsail "web") Start = Skip AlreadyInTargetState.
Proof. vm_compute. repeat split. Qed.

(** ** C3: one item per schedule, in order *)

Lemma mapM_cons {A B} (f : A -> M B) (x : A) (xs : list A) (w : World) :
  mapM f (x :: xs) w
  = (fst (f x w) :: fst (mapM f xs (snd (f x w))), snd (mapM f xs (snd (f x w)))).
Proof.
  cbn [mapM]. unfold bind, ret.
  destruct (f x w) as [y w1]. cbn [fst snd].
  destruct (mapM f xs w1) as [ys w2]. reflexivity.
Qed.

Lemma mapM_app {A B} (f : A -> M B) (xs ys : list A) (w : World) :
  mapM f (xs ++ ys) w
  = ((fst (mapM f xs w) ++ fst (mapM f ys (snd (mapM f xs w))))%list,
     snd (mapM f ys (snd (mapM f xs w)))).
Proof.
  revert w. induction xs as [|x xs IH]; intros w.
  - cbn [app mapM ret fst snd]. destruct (mapM f ys w); reflexivity.
  - rewrite <- app_comm_cons, !mapM_cons, IH. reflexivity.
Qed.

Lemma mapM_scheduleCallback_items (tz : Z) (scope : Scope) (rules : list EventSchedule)
    (w : World) :
  Forall2 (fun schedule item => exists msg, item = createResultItem schedule msg)
    rules (fst (mapM (scheduleCallback tz scope) rules w)).
Proof.
  revert w. induction rules as [|schedule rules IH]; intros w.
  - constructor.
  - rewrite mapM_cons. cbn [fst]. constructor; [apply scheduleCallback_item | apply IH].
Qed.

(** Evaluating schedules writes nothing to the console. *)
Lemma scheduleCallback_console (tz : Z) (scope : Scope) (schedule : EventSchedule) (w : World) :
  console (snd (scheduleCallback tz scope schedule w)) = console w.
Proof.
  rewrite scheduleCallback_eq.
  repeat match goal with |- context [if ?b then _ else _] => destruct b end;
    try reflexivity.
  unfold switchResourceEventType, startEc2Instance, stopEc2Instance,
    startLightsailInstance, stopLightsailInstance, bind, ret, send.
  cbv zeta.
  repeat match goal with
         | |- context [if ?b then _ else _] => destruct b
         | |- context [match ?o with Some _ => _ | None => _ end] => destruct o
         end; reflexivity.
Qed.

Lemma mapM_scheduleCallback_console (tz : Z) (scope : Scope) (rules : list EventSchedule)
    (w : World) :
  console (snd (mapM (scheduleCallback tz scope) rules w)) = console w.
Proof.
  revert w. induction rules as [|schedule rules IH]; intros w; [reflexivity |].
  rewrite mapM_cons. cbn [snd]. rewrite IH. apply scheduleCallback_console.
Qed.

(** C3: the handler computes exactly one result item per schedule of the
    event, the i-th item for the i-th schedule, and logs that list. *)
Theorem one_result_per_schedule_in_order (tz : Z) (event : AWSLambdaEvent) (w : World) :
  let results := fst (handlerResults tz event w) in
  length results = length (schedules event)
  /\ Forall2 (fun schedule item => exists msg, item = createResultItem schedule msg)
       (schedules event) results
  /\ console (snd (handler tz event w)) = (console w ++ [results])%list
  /\ fst (handler tz event w) = {| status := "success" |}.
Proof.
  cbv zeta.
  assert (HF : Forall2 (fun schedule item => exists msg, item = createResultItem schedule msg)
                 (schedules event) (fst (handlerResults tz event w))).
  { unfold handlerResults, bind. destruct (handlerScope w) as [scope w1].
    apply mapM_scheduleCallback_items. }
  split; [symmetry; eapply Forall2_length; exact HF | split; [exact HF |]].
  unfold handler, bind.
  assert (Hconsole := mapM_scheduleCallback_console tz).
  unfold handlerResults, bind in *.
  pose proof (Hconsole (fst (handlerScope w)) (schedules event) (snd (handlerScope w))) as Hc.
  destruct (handlerScope w) as [scope w1] eqn:Hscope. cbn [fst snd] in *.
  destruct (mapM (scheduleCallback tz scope) (schedules event) w1) as [results w2].
  cbn [fst snd console_log ret console] in *. rewrite Hc.
  split; [| reflexivity].
  unfold handlerScope, bind, newDate, axios_get, ec2_describeInstances,
    lightsail_getInstances, ret in Hscope.
  inversion Hscope. reflexivity.
Qed.

(** ** C4: unrecognized configuration *)

(** C4 does not hold of the code: the kind [ec2s] with the action [tart] is
    none of the four supported pairs and passes the three gates, yet the two
    concatenate without a separator to the key [ec2start]; instead of the
    item saying that the setting may be incorrect, the handler returns the
    start item and sends the start command for [i-1]. *)
Lemma split_key_is_dispatched :
  let scope := Sample.scopeAt Sample.wednesdayMorning in
  let w := Sample.worldAfterFetch Sample.wednesdayMorning in
  (forall kind action,
      (resourceType Sample.splitKey, eventType Sample.splitKey)
      <> (kindName kind, actionName action))
  /\ timeWindowMatches Sample.tz scope (clock w (reads w)) Sample.splitKey = true
  /\ weekdayAllowed scope Sample.splitKey = true
  /\ holidayCancelled scope Sample.splitKey = false
  /\ fst (scheduleCallback Sample.tz scope Sample.splitKey w)
     = createResultItem Sample.splitKey MESSAGES.INSTANCE_START_INSTRUCTED
  /\ fst (scheduleCallback Sample.tz scope Sample.splitKey w)
     <> createResultItem Sample.splitKey MESSAGES.SETTING_MAYBE_INCORRECT
  /\ dispatched (snd (scheduleCallback Sample.tz scope Sample.splitKey w))
     = [StartInstancesCommand ["i-1"]].
Proof.
  cbv zeta. split; [| repeat split; try (vm_compute; reflexivity)].
  - intros kind action. destruct kind, action; vm_compute; discriminate.
  - vm_compute. discriminate.
Qed.

(** With a key that is none of the four cases, the [switch] falls through. *)
Lemma switch_falls_through (scope : Scope) (schedule : EventSchedule) (w : World) :
  let key := resourceType schedule +:+ eventType schedule in
  key <> "ec2start" -> key <> "ec2stop" ->
  key <> "lightsailstart" -> key <> "lightsailstop" ->
  switchResourceEventType scope schedule w
  = (createResultItem schedule MESSAGES.SETTING_MAYBE_INCORRECT, w).
Proof.
  cbv zeta. intros H1 H2 H3 H4. unfold switchResourceEventType. cbv zeta.
  apply String.eqb_neq in H1, H2, H3, H4. rewrite H1, H2, H3, H4. reflexivity.
Qed.

(** X16: a rule that passes the three gates and whose concatenated key
    [resourceType + eventType] is none of [ec2start], [ec2stop],
    [lightsailstart], [lightsailstop] yields the item saying that the setting
    may be incorrect and sends nothing; the schedules before it and after it
    are evaluated as usual, those after it in a world that differs only by
    the one clock reading. *)
Theorem unrecognized_key_is_skipped (tz : Z) (scope : Scope)
    (before : list EventSchedule) (schedule : EventSchedule)
    (after : list EventSchedule) (w : World) :
  let key := resourceType schedule +:+ eventType schedule in
  let w1 := snd (mapM (scheduleCallback tz scope) before w) in
  key <> "ec2start" -> key <> "ec2stop" ->
  key <> "lightsailstart" -> key <> "lightsailstop" ->
  timeWindowMatches tz scope (clock w1 (reads w1)) schedule = true ->
  weekdayAllowed scope schedule = true ->
  holidayCancelled scope schedule = false ->
  scheduleCallback tz scope schedule w1
  = (createResultItem schedule MESSAGES.SETTING_MAYBE_INCORRECT, tick w1)
  /\ dispatched (tick w1) = dispatched w1
  /\ mapM (scheduleCallback tz scope) (before ++ schedule :: after) w
     = ((fst (mapM (scheduleCallback tz scope) before w)
         ++ createResultItem schedule MESSAGES.SETTING_MAYBE_INCORRECT
         :: fst (mapM (scheduleCallback tz scope) after (tick w1)))%list,
        snd (mapM (scheduleCallback tz scope) after (tick w1))).
Proof.
  cbv zeta. intros H1 H2 H3 H4 Hwindow Hweekday Hholiday.
  assert (Hone : scheduleCallback tz scope schedule
                   (snd (mapM (scheduleCallback tz scope) before w))
                 = (createResultItem schedule MESSAGES.SETTING_MAYBE_INCORRECT,
                    tick (snd (mapM (scheduleCallback tz scope) before w)))).
  { rewrite scheduleCallback_eq, Hwindow, Hweekday, Hholiday. cbn [negb].
    apply switch_falls_through; assumption. }
  split; [exact Hone | split; [reflexivity |]].
  rewrite mapM_app, mapM_cons, Hone. reflexivity.
Qed.

Lemma unrecognized_key_is_skipped_witness :
  scheduleCallback Sample.tz (Sample.scopeAt Sample.wednesdayMorning) Sample.unknownKind
    (snd (mapM (scheduleCallback Sample.tz (Sample.scopeAt Sample.wednesdayMorning))
            [Sample.startAtNine] (Sample.worldAfterFetch Sample.wednesdayMorning)))
  = (createResultItem Sample.unknownKind MESSAGES.SETTING_MAYBE_INCORRECT,
     tick (snd (mapM (scheduleCallback Sample.tz (Sample.scopeAt Sample.wednesdayMorning))
                  [Sample.startAtNine] (Sample.worldAfterFetch Sample.wednesdayMorning)))).
Proof.
  apply (unrecognized_key_is_skipped Sample.tz (Sample.scopeAt Sample.wednesdayMorning)
           [Sample.startAtNine] Sample.unknownKind [Sample.startAtNine]
           (Sample.worldAfterFetch Sample.wednesdayMorning));
    try (vm_compute; reflexivity); vm_compute; discriminate.
Defined.

(** ** C6: the weekday filter *)

Lemma getDay_range (d : Date.t) : 0 <= Date.getDay d < 7.
Proof. unfold Date.getDay. apply Z.mod_pos_bound. lia. Qed.

Lemma weekdayAllowed_iff (scope : Scope) (schedule : EventSchedule) :
  weekdayAllowed scope schedule = true
  <-> Date.getDay (currentDate scope) ∈ weekdays schedule.
Proof. unfold weekdayAllowed, includes. apply bool_decide_eq_true. Qed.

(** C6: for a rule inside its time window, the Weekday Filter lets the rule
    pass iff the weekday of the handler's current date, a number from 0
    (Sunday) to 6 (Saturday), is an entry of the rule's [weekdays]; otherwise
    the callback returns the item naming the weekday and sends nothing. *)
Theorem weekday_filter_membership (tz : Z) (scope : Scope) (schedule : EventSchedule)
    (w : World) :
  timeWindowMatches tz scope (clock w (reads w)) schedule = true ->
  (weekdayAllowed scope schedule = true
   <-> Date.getDay (currentDate scope) ∈ weekdays schedule)
  /\ (scheduleCallback tz scope schedule w
      = (createResultItem schedule
           (MESSAGES.CANCELLED_TODAY_NOT_WORKING_DAY (currentDate scope)), tick w)
      <-> Date.getDay (currentDate scope) ∉ weekdays schedule)
  /\ 0 <= Date.getDay (currentDate scope) < 7.
Proof.
  intros Hwindow. split; [apply weekdayAllowed_iff |]. split; [| apply getDay_range].
  rewrite <- weekdayAllowed_iff, scheduleCallback_eq, Hwindow. cbn [negb].
  destruct (weekdayAllowed scope schedule); cbn [negb].
  - split; [| intros Hn; exfalso; apply Hn; reflexivity].
    intros Heq. exfalso.
    apply (f_equal (fun r => details (fst r))) in Heq. cbn [fst details createResultItem] in Heq.
    destruct (holidayCancelled scope schedule).
    + cbn [fst details createResultItem] in Heq. symmetry in Heq.
      exact (weekday_message_not_holiday _ _ Heq).
    + exact (proj1 (proj2 (switch_details_not_gate scope schedule (tick w))) _ Heq).
  - split; [intros _ Hc; discriminate Hc | reflexivity].
Qed.

(** From Monday to Friday: skipped on a Sunday. *)
Lemma weekday_filter_membership_witness :
  scheduleCallback Sample.tz (Sample.scopeAt Sample.sundayMorning) Sample.startAtNine
    (Sample.worldAfterFetch Sample.sundayMorning)
  = (createResultItem Sample.startAtNine
       (MESSAGES.CANCELLED_TODAY_NOT_WORKING_DAY
          (currentDate (Sample.scopeAt Sample.sundayMorning))),
     tick (Sample.worldAfterFetch Sample.sundayMorning)).
Proof.
  apply (weekday_filter_membership Sample.tz (Sample.scopeAt Sample.sundayMorning)
           Sample.startAtNine (Sample.worldAfterFetch Sample.sundayMorning)).
  - vm_compute. reflexivity.
  - vm_compute. intros H. apply list_elem_of_In in H. cbn [In] in H.
    repeat (destruct H as [H | H]; [discriminate H |]). exact H.
Defined.

(** From Monday to Friday: Sunday is weekday 0 and filtered out, Wednesday is
    weekday 3 and passes. *)
Example weekday_filter_sunday_wednesday :
  Date.getDay (currentDate (Sample.scopeAt Sample.sundayMorning)) = 0
  /\ weekdayAllowed (Sample.scopeAt Sample.sundayMorning) Sample.startAtNine = false
  /\ details (fst (scheduleCallback Sample.tz (Sample.scopeAt Sample.sundayMorning)
                     Sample.startAtNine (Sample.worldAfterFetch Sample.sundayMorning)))
     = "本日は日曜日のため何もしませんでした"
  /\ Date.getDay (currentDate (Sample.scopeAt Sample.wednesdayMorning)) = 3
  /\ weekdayAllowed (Sample.scopeAt Sample.wednesdayMorning) Sample.startAtNine = true
  /\ details (fst (scheduleCallback Sample.tz (Sample.scopeAt Sample.wednesdayMorning)
                     Sample.startAtNine (Sample.worldAfterFetch Sample.wednesdayMorning)))
     = MESSAGES.INSTANCE_START_INSTRUCTED.
Proof. vm_compute. repeat split. Qed.

(** ** C5: the holiday guard *)

Lemma includes_Object_keys (calendar : ApiHoliday) (key : string) :
  includes (Object_keys calendar) key = true <-> is_Some (calendar !! key).
Proof.
  unfold includes, Object_keys. rewrite bool_decide_eq_true, list_elem_of_fmap. split.
  - intros [[k v] [-> Hin]]. apply elem_of_map_to_list in Hin. exists v. exact Hin.
  - intros [v Hv]. exists (key, v). split; [reflexivity | apply elem_of_map_to_list, Hv].
Qed.

(** [todayIsHoliday], as the handler computes it, says that the date key of
    the current date is a key of the fetched calendar. *)
Lemma handlerScope_todayIsHoliday (w : World) :
  todayIsHoliday (fst (handlerScope w)) = true
  <-> is_Some (holidays (fst (handlerScope w)) !! currentDateStr (fst (handlerScope w))).
Proof.
  rewrite <- includes_Object_keys. reflexivity.
Qed.

(** The date key is year, month and day of the current date. *)
Lemma handlerScope_currentDateStr (w : World) :
  let scope := fst (handlerScope w) in
  currentDateStr scope
  = numberToString (Date.getFullYear (currentDate scope))
    +:+ "-" +:+ padStart 2 "0" (numberToString (Date.getMonth (currentDate scope) + 1))
    +:+ "-" +:+ padStart 2 "0" (numberToString (Date.getDate (currentDate scope))).
Proof. reflexivity. Qed.

Lemma holidayCancelled_iff (w0 : World) (schedule : EventSchedule) :
  let scope := fst (handlerScope w0) in
  holidayCancelled scope schedule = true
  <-> holiday schedule = Some CANCEL_EVENT_ON_PUBLIC_HOLIDAY
      /\ is_Some (holidays scope !! currentDateStr scope).
Proof.
  cbv zeta. unfold holidayCancelled.
  rewrite andb_true_iff, bool_decide_eq_true, handlerScope_todayIsHoliday. tauto.
Qed.

(** C5: for a rule inside its time window on an operating weekday, the
    Holiday Guard cancels iff the rule's [holiday] setting is the cancel
    value and the date key of the current date is a key of the calendar;
    the item it then returns carries the calendar's name for that date, and
    nothing is sent. With any other setting the rule goes on to the
    [switch] and no holiday item is returned. *)
Theorem holiday_guard_cancels (tz : Z) (w0 : World) (schedule : EventSchedule) (w : World) :
  let scope := fst (handlerScope w0) in
  timeWindowMatches tz scope (clock w (reads w)) schedule = true ->
  weekdayAllowed scope schedule = true ->
  (holidayCancelled scope schedule = true
   <-> holiday schedule = Some CANCEL_EVENT_ON_PUBLIC_HOLIDAY
       /\ is_Some (holidays scope !! currentDateStr scope))
  /\ (holidayCancelled scope schedule = true ->
      exists holidayName,
        holidays scope !! currentDateStr scope = Some holidayName
        /\ scheduleCallback tz scope schedule w
           = (createResultItem schedule
                ("本日は祝日(" +:+ holidayName +:+ ")のため何もしませんでした"),
              tick w))
  /\ (holiday schedule <> Some CANCEL_EVENT_ON_PUBLIC_HOLIDAY ->
      holidayCancelled scope schedule = false)
  /\ (holidayCancelled scope schedule = false ->
      scheduleCallback tz scope schedule w = switchResourceEventType scope schedule (tick w)
      /\ forall n, details (fst (scheduleCallback tz scope schedule w))
                   <> MESSAGES.CANCELLED_TODAY_IS_HOLIDAY n).
Proof.
  cbv zeta. intros Hwindow Hweekday.
  split; [apply holidayCancelled_iff |].
  rewrite scheduleCallback_eq, Hwindow, Hweekday. cbn [negb].
  split; [| split].
  - intros Hc. rewrite Hc.
    apply holidayCancelled_iff in Hc. destruct Hc as [_ [holidayName Hname]].
    exists holidayName. split; [exact Hname |]. rewrite Hname. reflexivity.
  - intros Hpolicy. apply not_true_is_false. intros Hc.
    apply holidayCancelled_iff in Hc. apply Hpolicy, Hc.
  - intros Hc. rewrite Hc. split; [reflexivity |].
    apply switch_details_not_gate.
Qed.

(** On Coming of Age Day the rule is cancelled, and the item names the day. *)
Lemma holiday_guard_cancels_witness :
  exists holidayName,
    holidays (Sample.scopeAt Sample.holidayMondayMorning)
      !! currentDateStr (Sample.scopeAt Sample.holidayMondayMorning) = Some holidayName
    /\ scheduleCallback Sample.tz (Sample.scopeAt Sample.holidayMondayMorning)
         Sample.startAtNineUnlessHoliday (Sample.worldAfterFetch Sample.holidayMondayMorning)
       = (createResultItem Sample.startAtNineUnlessHoliday
            ("本日は祝日(" +:+ holidayName +:+ ")のため何もしませんでした"),
          tick (Sample.worldAfterFetch Sample.holidayMondayMorning)).
Proof.
  apply (holiday_guard_cancels Sample.tz (Sample.worldAt Sample.holidayMondayMorning)
           Sample.startAtNineUnlessHoliday (Sample.worldAfterFetch Sample.holidayMondayMorning));
    vm_compute; reflexivity.
Defined.

(** The same Monday: cancelled with the cancel setting, started without it. *)
Example holiday_guard_on_sample :
  currentDateStr (Sample.scopeAt Sample.holidayMondayMorning) = "2024-01-08"
  /\ details (fst (scheduleCallback Sample.tz (Sample.scopeAt Sample.holidayMondayMorning)
                     Sample.startAtNineUnlessHoliday
                     (Sample.worldAfterFetch Sample.holidayMondayMorning)))
     = "本日は祝日(成人の日)のため何もしませんでした"
  /\ details (fst (scheduleCallback Sample.tz (Sample.scopeAt Sample.holidayMondayMorning)
                     Sample.startAtNine
                     (Sample.worldAfterFetch Sample.holidayMondayMorning)))
     = MESSAGES.INSTANCE_START_INSTRUCTED.
Proof. vm_compute. repeat split. Qed.

(** ** C9: the weekday filter comes before the holiday guard *)

(** C9: when the weekday of the current date is not among the rule's
    [weekdays] and the holiday guard would cancel as well (the date key is
    in the calendar and the rule has the cancel setting), the item returned
    is the one naming the weekday, never the holiday one. *)
Theorem weekday_filter_precedes_holiday_guard (tz : Z) (w0 : World)
    (schedule : EventSchedule) (w : World) :
  let scope := fst (handlerScope w0) in
  timeWindowMatches tz scope (clock w (reads w)) schedule = true ->
  Date.getDay (currentDate scope) ∉ weekdays schedule ->
  is_Some (holidays scope !! currentDateStr scope) ->
  holiday schedule = Some CANCEL_EVENT_ON_PUBLIC_HOLIDAY ->
  holidayCancelled scope schedule = true
  /\ scheduleCallback tz scope schedule w
     = (createResultItem schedule
          (MESSAGES.CANCELLED_TODAY_NOT_WORKING_DAY (currentDate scope)), tick w)
  /\ forall n, details (fst (scheduleCallback tz scope schedule w))
               <> MESSAGES.CANCELLED_TODAY_IS_HOLIDAY n.
Proof.
  cbv zeta. intros Hwindow Hweekday Hkey Hpolicy.
  split; [apply holidayCancelled_iff; split; assumption |].
  rewrite <- weekdayAllowed_iff in Hweekday. apply not_true_is_false in Hweekday.
  rewrite scheduleCallback_eq, Hwindow, Hweekday. cbn [negb fst details createResultItem].
  split; [reflexivity |]. intros n. apply weekday_message_not_holiday.
Qed.

(** Coming of Age Day falls on a Monday; a rule for Tuesday to Friday that
    cancels on holidays reports the Monday. *)
Lemma weekday_filter_precedes_holiday_guard_witness :
  details (fst (scheduleCallback Sample.tz (Sample.scopeAt Sample.holidayMondayMorning)
                  Sample.startTueToFriUnlessHoliday
                  (Sample.worldAfterFetch Sample.holidayMondayMorning)))
  = "本日は月曜日のため何もしませんでした"
  /\ holidayCancelled (Sample.scopeAt Sample.holidayMondayMorning)
       Sample.startTueToFriUnlessHoliday = true.
Proof.
  destruct (weekday_filter_precedes_holiday_guard Sample.tz
              (Sample.worldAt Sample.holidayMondayMorning)
              Sample.startTueToFriUnlessHoliday
              (Sample.worldAfterFetch Sample.holidayMondayMorning))
    as (Hguard & Hitem & _).
  - vm_compute. reflexivity.
  - vm_compute. intros H. apply list_elem_of_In in H. cbn [In] in H.
    repeat (destruct H as [H | H]; [discriminate H |]). exact H.
  - vm_compute. eexists. reflexivity.
  - reflexivity.
  - split; [| exact Hguard].
    unfold Sample.scopeAt. rewrite Hitem. vm_compute. reflexivity.
Defined.

(** ** C7: the resource locator *)

Lemma flat_map_instances (reservations : list EC2.Reservation) (instance : EC2.Instance) :
  In instance (flat_map (fun reservation => default [] (EC2.Instances reservation))
                 reservations)
  <-> exists reservation instances,
      reservation ∈ reservations
      /\ EC2.Instances reservation = Some instances
      /\ instance ∈ instances.
Proof.
  rewrite in_flat_map. split.
  - intros (reservation & Hin & Hinst).
    destruct (EC2.Instances reservation) as [instances|] eqn:Heq; [| destruct Hinst].
    exists reservation, instances.
    repeat split; [apply list_elem_of_In, Hin | exact Heq | apply list_elem_of_In, Hinst].
  - intros (reservation & instances & Hin & Heq & Hinst).
    exists reservation. split; [apply list_elem_of_In, Hin |].
    rewrite Heq. apply list_elem_of_In, Hinst.
Qed.

Lemma searchEc2Instance_some (resourceId : string)
    (ec2Result : EC2.DescribeInstancesCommandOutput) (instance : EC2.Instance) :
  searchEc2Instance resourceId ec2Result = Some instance ->
  EC2.InstanceId instance = Some resourceId
  /\ exists reservations reservation instances,
      EC2.Reservations ec2Result = Some reservations
      /\ reservation ∈ reservations
      /\ EC2.Instances reservation = Some instances
      /\ instance ∈ instances.
Proof.
  unfold searchEc2Instance. intros Hfind.
  destruct (EC2.Reservations ec2Result) as [reservations|]; [| discriminate Hfind].
  cbn [mbind option_bind] in Hfind. apply find_some in Hfind. destruct Hfind as [Hin Hid].
  apply bool_decide_eq_true in Hid. split; [exact Hid |].
  apply flat_map_instances in Hin. destruct Hin as (reservation & instances & H1 & H2 & H3).
  exists reservations, reservation, instances. auto.
Qed.

Lemma searchEc2Instance_none (resourceId : string)
    (ec2Result : EC2.DescribeInstancesCommandOutput) :
  searchEc2Instance resourceId ec2Result = None
  <-> forall reservations reservation instances instance,
      EC2.Reservations ec2Result = Some reservations ->
      reservation ∈ reservations ->
      EC2.Instances reservation = Some instances ->
      instance ∈ instances ->
      EC2.InstanceId instance <> Some resourceId.
Proof.
  unfold searchEc2Instance.
  destruct (EC2.Reservations ec2Result) as [reservations|]; cbn [mbind option_bind].
  - split.
    + intros Hnone rs reservation instances instance Hrs Hin Heq Hinst Hid.
      injection Hrs as <-.
      eapply find_none in Hnone;
        [| apply flat_map_instances; exists reservation, instances; eauto].
      apply bool_decide_eq_false in Hnone. exact (Hnone Hid).
    + intros Hall.
      destruct (find _ _) as [instance|] eqn:Hfind; [exfalso | reflexivity].
      apply find_some in Hfind. destruct Hfind as [Hin Hid].
      apply bool_decide_eq_true in Hid.
      apply flat_map_instances in Hin.
      destruct Hin as (reservation & instances & H1 & H2 & H3).
      exact (Hall reservations reservation instances instance eq_refl H1 H2 H3 Hid).
  - split; [intros _ rs ? ? ? Hrs; discriminate Hrs | reflexivity].
Qed.

Lemma searchLightsailInstance_some (resourceId : string)
    (lightsailResult : Lightsail.GetInstancesCommandOutput) (instance : Lightsail.Instance) :
  searchLightsailInstance resourceId lightsailResult = Some instance ->
  Lightsail.name instance = Some resourceId
  /\ Lightsail.resourceType instance = Some "Instance"
  /\ exists instances,
      Lightsail.instances lightsailResult = Some instances /\ instance ∈ instances.
Proof.
  unfold searchLightsailInstance. intros Hfind.
  destruct (Lightsail.instances lightsailResult) as [instances|]; [| discriminate Hfind].
  cbn [mbind option_bind] in Hfind. apply find_some in Hfind. destruct Hfind as [Hin Hid].
  apply andb_true_iff in Hid. destruct Hid as [Htype Hname].
  apply bool_decide_eq_true in Htype, Hname.
  repeat split; [exact Hname | exact Htype |].
  exists instances. split; [reflexivity | apply list_elem_of_In, Hin].
Qed.

Lemma searchLightsailInstance_none (resourceId : string)
    (lightsailResult : Lightsail.GetInstancesCommandOutput) :
  searchLightsailInstance resourceId lightsailResult = None
  <-> forall instances instance,
      Lightsail.instances lightsailResult = Some instances ->
      instance ∈ instances ->
      ~ (Lightsail.name instance = Some resourceId
         /\ Lightsail.resourceType instance = Some "Instance").
Proof.
  unfold searchLightsailInstance.
  destruct (Lightsail.instances lightsailResult) as [instances|]; cbn [mbind option_bind].
  - split.
    + intros Hnone entries instance Heq Hin [Hname Htype]. injection Heq as <-.
      eapply find_none in Hnone; [| apply list_elem_of_In, Hin].
      apply andb_false_iff in Hnone.
      destruct Hnone as [Hn | Hn]; apply bool_decide_eq_false in Hn; auto.
    + intros Hall.
      destruct (find _ _) as [instance|] eqn:Hfind; [exfalso | reflexivity].
      apply find_some in Hfind. destruct Hfind as [Hin Hid].
      apply andb_true_iff in Hid. destruct Hid as [Htype Hname].
      apply bool_decide_eq_true in Htype, Hname.
      apply (Hall instances instance eq_refl); [apply list_elem_of_In, Hin | auto].
  - split; [intros _ entries ? Heq; discriminate Heq | reflexivity].
Qed.

(** C7: the locator of each kind has its own matching rule. For EC2 an
    instance found has the wanted [InstanceId] and comes from one of the
    reservations, and nothing is found iff no instance of any reservation
    has that [InstanceId]. For Lightsail an entry found has the wanted
    [name] and the [resourceType] [Instance], and nothing is found iff no
    entry has both. Finding nothing is the ordinary result [None]. *)
Theorem resource_locator_matching (resourceId : string)
    (ec2Result : EC2.DescribeInstancesCommandOutput)
    (lightsailResult : Lightsail.GetInstancesCommandOutput) :
  (forall instance,
      searchEc2Instance resourceId ec2Result = Some instance ->
      EC2.InstanceId instance = Some resourceId
      /\ exists reservations reservation instances,
          EC2.Reservations ec2Result = Some reservations
          /\ reservation ∈ reservations
          /\ EC2.Instances reservation = Some instances
          /\ instance ∈ instances)
  /\ (searchEc2Instance resourceId ec2Result = None
      <-> forall reservations reservation instances instance,
          EC2.Reservations ec2Result = Some reservations ->
          reservation ∈ reservations ->
          EC2.Instances reservation = Some instances ->
          instance ∈ instances ->
          EC2.InstanceId instance <> Some resourceId)
  /\ (forall instance,
         searchLightsailInstance resourceId lightsailResult = Some instance ->
         Lightsail.name instance = Some resourceId
         /\ Lightsail.resourceType instance = Some "Instance"
         /\ exists instances,
             Lightsail.instances lightsailResult = Some instances
             /\ instance ∈ instances)
  /\ (searchLightsailInstance resourceId lightsailResult = None
      <-> forall instances instance,
          Lightsail.instances lightsailResult = Some instances ->
          instance ∈ instances ->
          ~ (Lightsail.name instance = Some resourceId
             /\ Lightsail.resourceType instance = Some "Instance")).
Proof.
  split; [intros instance; apply searchEc2Instance_some |].
  split; [apply searchEc2Instance_none |].
  split; [intros instance; apply searchLightsailInstance_some |].
  apply searchLightsailInstance_none.
Qed.

(** On the sample listings: instances are found across reservations, and a
    Lightsail entry of another resource type with the same name is passed
    over. *)
Example resource_locator_on_sample :
  (EC2.InstanceId <$> searchEc2Instance "i-3" Sample.ec2) = Some (Some "i-3")
  /\ searchEc2Instance "i-9" Sample.ec2 = None
  /\ (Lightsail.resourceType <$> searchLightsailInstance "web" Sample.lightsail)
     = Some (Some "Instance")
  /\ searchLightsailInstance "db" Sample.lightsail = None.
Proof. vm_compute. repeat split. Qed.

(** ** C10: listings with nothing in them *)

Lemma searchEc2Instance_without_instances (resourceId : string)
    (ec2Result : EC2.DescribeInstancesCommandOutput) :
  ec2WithoutInstances ec2Result -> searchEc2Instance resourceId ec2Result = None.
Proof.
  unfold ec2WithoutInstances. intros Hbare.
  apply searchEc2Instance_none.
  intros reservations reservation instances instance Hrs Hin Heq Hinst.
  rewrite Hrs in Hbare. destruct (Hbare reservation Hin) as [Hn | Hn]; rewrite Hn in Heq.
  - discriminate Heq.
  - injection Heq as <-. apply elem_of_nil in Hinst. destruct Hinst.
Qed.

Lemma searchLightsailInstance_without_instances (resourceId : string)
    (lightsailResult : Lightsail.GetInstancesCommandOutput) :
  lightsailWithoutInstances lightsailResult ->
  searchLightsailInstance resourceId lightsailResult = None.
Proof.
  unfold lightsailWithoutInstances, searchLightsailInstance.
  intros [-> | ->]; reflexivity.
Qed.

(** C10: on a listing with nothing in it (no [Reservations], reservations
    without [Instances], no [instances]) both lookups return [None], and a
    rule for a supported kind and action that passes the three gates gets
    the item saying that the instance was not found; nothing is sent and the
    evaluation goes on. *)
Theorem locator_on_listing_without_instances (tz : Z) (scope : Scope)
    (schedule : EventSchedule) (w : World) (kind : ResourceKind) (action : Action) :
  ec2WithoutInstances (ec2Result scope) ->
  lightsailWithoutInstances (lightsailResult scope) ->
  resourceType schedule = kindName kind ->
  eventType schedule = actionName action ->
  timeWindowMatches tz scope (clock w (reads w)) schedule = true ->
  weekdayAllowed scope schedule = true ->
  holidayCancelled scope schedule = false ->
  (forall resourceId, searchEc2Instance resourceId (ec2Result scope) = None)
  /\ (forall resourceId, searchLightsailInstance resourceId (lightsailResult scope) = None)
  /\ locate scope kind (resourceId schedule) = NotFound
  /\ scheduleCallback tz scope schedule w
     = (createResultItem schedule MESSAGES.INSTANCE_NOT_FOUND, tick w)
  /\ dispatched (tick w) = dispatched w.
Proof.
  intros Hec2 Hlightsail Hkind Haction Hwindow Hweekday Hholiday.
  assert (Hlocate : locate scope kind (resourceId schedule) = NotFound).
  { destruct kind; cbn [locate].
    - rewrite searchEc2Instance_without_instances; [reflexivity | exact Hec2].
    - rewrite searchLightsailInstance_without_instances; [reflexivity | exact Hlightsail]. }
  split; [intros rid; apply searchEc2Instance_without_instances, Hec2 |].
  split; [intros rid; apply searchLightsailInstance_without_instances, Hlightsail |].
  split; [exact Hlocate |]. split; [| reflexivity].
  rewrite scheduleCallback_eq, Hwindow, Hweekday, Hholiday. cbn [negb].
  rewrite (switch_enacts_table scope schedule (tick w) kind action Hkind Haction), Hlocate.
  destruct action; reflexivity.
Qed.

Lemma locator_on_listing_without_instances_witness :
  scheduleCallback Sample.tz (fst (handlerScope (Sample.bareWorldAt Sample.wednesdayMorning)))
    Sample.startAtNine (snd (handlerScope (Sample.bareWorldAt Sample.wednesdayMorning)))
  = (createResultItem Sample.startAtNine MESSAGES.INSTANCE_NOT_FOUND,
     tick (snd (handlerScope (Sample.bareWorldAt Sample.wednesdayMorning)))).
Proof.
  apply (locator_on_listing_without_instances Sample.tz
           (fst (handlerScope (Sample.bareWorldAt Sample.wednesdayMorning)))
           Sample.startAtNine
           (snd (handlerScope (Sample.bareWorldAt Sample.wednesdayMorning)))
           KindEc2 Start);
    try (vm_compute; reflexivity).
  - intros reservation Hin. apply list_elem_of_In in Hin. cbn [In] in Hin.
    destruct Hin as [<- | [<- | []]]; [left | right]; reflexivity.
  - left. reflexivity.
Defined.

(** ** C8: two runs on the same input *)

(** The target instant depends on the clock reading through its day only. *)
Lemma eventDateOf_same_day (today today' : Date.t) (schedule : EventSchedule) :
  Date.day today = Date.day today' ->
  eventDateOf today schedule = eventDateOf today' schedule.
Proof.
  intros Hday. unfold eventDateOf, Date.setHours, Date.startOfDay. rewrite Hday. reflexivity.
Qed.

(** The [switch] returns an item that does not depend on the world, and
    either leaves the world alone or sends one command. *)
Lemma switchResourceEventType_effect (scope : Scope) (schedule : EventSchedule) :
  exists item,
    (forall w, switchResourceEventType scope schedule w = (item, w))
    \/ exists command, forall w,
        switchResourceEventType scope schedule w = (item, afterSend command w).
Proof.
  unfold switchResourceEventType, startEc2Instance, stopEc2Instance,
    startLightsailInstance, stopLightsailInstance, bind, ret.
  cbv zeta.
  repeat match goal with
         | |- context [if ?b then _ else _] => destruct b
         | |- context [match ?o with Some _ => _ | None => _ end] => destruct o
         end;
    eexists; first [ left; intros w; reflexivity
                   | right; eexists; intros w; reflexivity ].
Qed.

Lemma sameDaysAhead_tick (w1 w2 : World) :
  sameDaysAhead w1 w2 -> sameDaysAhead (tick w1) (tick w2).
Proof.
  intros (Hreads & Hsent & Hdays). unfold sameDaysAhead, tick. cbn.
  repeat split; [congruence | exact Hsent |].
  intros n Hn. apply Hdays. lia.
Qed.

Lemma sameDaysAhead_afterSend (command : Command) (w1 w2 : World) :
  sameDaysAhead w1 w2 -> sameDaysAhead (afterSend command w1) (afterSend command w2).
Proof.
  intros (Hreads & Hsent & Hdays). unfold sameDaysAhead, afterSend. cbn.
  repeat split; [exact Hreads | congruence | exact Hdays].
Qed.

Lemma scheduleCallback_sameDaysAhead (tz : Z) (scope : Scope) (schedule : EventSchedule)
    (w1 w2 : World) :
  sameDaysAhead w1 w2 ->
  fst (scheduleCallback tz scope schedule w1) = fst (scheduleCallback tz scope schedule w2)
  /\ sameDaysAhead (snd (scheduleCallback tz scope schedule w1))
       (snd (scheduleCallback tz scope schedule w2)).
Proof.
  intros Hsame. pose proof (sameDaysAhead_tick w1 w2 Hsame) as Htick.
  destruct Hsame as (Hreads & Hsent & Hdays).
  rewrite !scheduleCallback_eq. unfold timeWindowMatches.
  rewrite (eventDateOf_same_day (clock w1 (reads w1)) (clock w2 (reads w2)) schedule)
    by (rewrite <- Hreads; apply Hdays; lia).
  cbv zeta.
  repeat match goal with |- context [if ?b then _ else _] => destruct b end;
    try (split; [reflexivity | exact Htick]).
  destruct (switchResourceEventType_effect scope schedule) as [item [Hw | [command Hw]]];
    rewrite !Hw; cbn [fst snd]; (split; [reflexivity |]).
  - exact Htick.
  - apply sameDaysAhead_afterSend, Htick.
Qed.

Lemma mapM_scheduleCallback_sameDaysAhead (tz : Z) (scope : Scope)
    (rules : list EventSchedule) (w1 w2 : World) :
  sameDaysAhead w1 w2 ->
  fst (mapM (scheduleCallback tz scope) rules w1)
  = fst (mapM (scheduleCallback tz scope) rules w2)
  /\ sameDaysAhead (snd (mapM (scheduleCallback tz scope) rules w1))
       (snd (mapM (scheduleCallback tz scope) rules w2)).
Proof.
  revert w1 w2. induction rules as [|schedule rules IH]; intros w1 w2 Hsame.
  - split; [reflexivity | exact Hsame].
  - rewrite !mapM_cons. cbn [fst snd].
    destruct (scheduleCallback_sameDaysAhead tz scope schedule w1 w2 Hsame) as [Hitem Hnext].
    destruct (IH _ _ Hnext) as [Hitems Hlast].
    split; [rewrite Hitem, Hitems; reflexivity | exact Hlast].
Qed.

(** C8 does not hold of the code: the target instant of a schedule is built
    from a clock reading of its own. Two invocations that start at the same
    instant, half a minute before midnight, with the same event, calendar
    and listings, differ: the one that reaches the 23:59 schedule before
    midnight starts the instance, the one that reaches it a second after
    midnight puts the target a day late and returns the out-of-window
    item. *)
Lemma later_clock_reading_changes_results :
  let w1 := Sample.worldAt Sample.beforeMidnight in
  let w2 := Sample.worldAtThen Sample.beforeMidnight Sample.afterMidnight in
  let event := {| schedules := [Sample.startBeforeMidnight] |} in
  clock w1 (reads w1) = clock w2 (reads w2)
  /\ holidayApi w1 = holidayApi w2
  /\ ec2Listing w1 = ec2Listing w2
  /\ lightsailListing w1 = lightsailListing w2
  /\ fst (handlerScope w1) = fst (handlerScope w2)
  /\ fst (handlerResults Sample.tz event w1)
     = [createResultItem Sample.startBeforeMidnight MESSAGES.INSTANCE_START_INSTRUCTED]
  /\ fst (handlerResults Sample.tz event w2)
     = [createResultItem Sample.startBeforeMidnight MESSAGES.CANCELLED_TIME_OUT_OF_RANGE]
  /\ fst (handlerResults Sample.tz event w1) <> fst (handlerResults Sample.tz event w2).
Proof.
  cbv zeta. repeat split; try reflexivity; try (vm_compute; reflexivity).
  vm_compute. discriminate.
Qed.

(** As long as no clock reading leaves the calendar day of the first, the
    later readings do not matter: two invocations with the same event, the
    same first clock reading, the same calendar and the same listings then
    compute the same results and send the same commands. *)
Theorem same_input_same_results_within_a_day (tz : Z) (event : AWSLambdaEvent)
    (w1 w2 : World) :
  reads w1 = reads w2 ->
  clock w1 (reads w1) = clock w2 (reads w2) ->
  holidayApi w1 = holidayApi w2 ->
  ec2Listing w1 = ec2Listing w2 ->
  lightsailListing w1 = lightsailListing w2 ->
  dispatched w1 = dispatched w2 ->
  (forall n, (reads w1 < n)%nat ->
             Date.day (clock w1 n) = Date.day (clock w1 (reads w1))
             /\ Date.day (clock w2 n) = Date.day (clock w2 (reads w2))) ->
  fst (handlerResults tz event w1) = fst (handlerResults tz event w2)
  /\ dispatched (snd (handlerResults tz event w1))
     = dispatched (snd (handlerResults tz event w2)).
Proof.
  intros Hreads Hnow Hapi Hec2 Hlightsail Hsent Hdays.
  unfold handlerResults, bind.
  assert (Hscope : fst (handlerScope w1) = fst (handlerScope w2)).
  { unfold handlerScope, bind, newDate, axios_get, ec2_describeInstances,
      lightsail_getInstances, ret. cbn [fst snd holidayApi ec2Listing lightsailListing].
    rewrite Hnow, Hapi, Hec2, Hlightsail. reflexivity. }
  assert (Hsame : sameDaysAhead (snd (handlerScope w1)) (snd (handlerScope w2))).
  { unfold sameDaysAhead, handlerScope, bind, newDate, axios_get, ec2_describeInstances,
      lightsail_getInstances, ret. cbn [fst snd reads dispatched clock].
    repeat split; [congruence | exact Hsent |].
    intros n Hn. destruct (Hdays n) as [H1 H2]; [lia |]. rewrite H1, H2, Hnow. reflexivity. }
  destruct (handlerScope w1) as [scope1 w1'], (handlerScope w2) as [scope2 w2'].
  cbn [fst snd] in Hscope, Hsame. subst scope2.
  destruct (mapM_scheduleCallback_sameDaysAhead tz scope1 (schedules event) w1' w2' Hsame)
    as [Hitems (_ & Hsent' & _)].
  split; [exact Hitems | exact Hsent'].
Qed.

(** Two runs on a Wednesday morning, the second reaching the schedules five
    seconds later than the first. *)
Lemma same_input_same_results_within_a_day_witness :
  fst (handlerResults Sample.tz {| schedules := [Sample.startAtNine; Sample.unknownKind] |}
         (Sample.worldAt Sample.wednesdayMorning))
  = fst (handlerResults Sample.tz {| schedules := [Sample.startAtNine; Sample.unknownKind] |}
           (Sample.worldAtThen Sample.wednesdayMorning (Sample.wednesdayMorning + 5000))).
Proof.
  apply (same_input_same_results_within_a_day Sample.tz
           {| schedules := [Sample.startAtNine; Sample.unknownKind] |}
           (Sample.worldAt Sample.wednesdayMorning)
           (Sample.worldAtThen Sample.wednesdayMorning (Sample.wednesdayMorning + 5000)));
    try reflexivity.
  intros n Hn. destruct n as [|n]; [inversion Hn |]. split; vm_compute; reflexivity.
Defined.


(** * Further properties of the handler *)

(** ** When a command is sent *)

(** The [switch] by its key: whatever the two fields are, a key that reads
    as a supported kind followed by a supported action is handled as that
    pair. *)
Lemma switch_enacts_table_by_key (scope : Scope) (schedule : EventSchedule) (w : World)
    (kind : ResourceKind) (action : Action) :
  resourceType schedule +:+ eventType schedule = kindName kind +:+ actionName action ->
  switchResourceEventType scope schedule w
  = enact kind action schedule
      (actionDecider (locate scope kind (resourceId schedule)) action) w.
Proof.
  intros Hkey. unfold switchResourceEventType. cbv zeta. rewrite Hkey.
  destruct kind, action; cbn [kindName actionName locate];
    repeat match goal with
           | |- context [String.eqb ?a ?b] =>
               let v := eval vm_compute in (String.eqb a b) in
               change (String.eqb a b) with v
           end;
    cbv iota;
    unfold startEc2Instance, stopEc2Instance, startLightsailInstance, stopLightsailInstance.
  all: match goal with
       | |- context [searchEc2Instance ?r ?e] => destruct (searchEc2Instance r e) as [i|]
       | |- context [searchLightsailInstance ?r ?e] =>
           destruct (searchLightsailInstance r e) as [i|]
       end; [| reflexivity].
  all: match goal with
       | |- context [statusOfName ?n] =>
           pose proof (statusOfName_running n); pose proof (statusOfName_stopped n);
           destruct (statusOfName n) eqn:Hs
       end.
  all: try (exfalso; exact (statusOfName_found _ Hs)).
  all: repeat case_bool_decide; try reflexivity; intuition congruence.
Qed.

(** A key is one of the four cases of the [switch] or none of them. *)
Lemma switch_key_cases (schedule : EventSchedule) :
  (exists kind action,
      resourceType schedule +:+ eventType schedule = kindName kind +:+ actionName action)
  \/ (resourceType schedule +:+ eventType schedule <> "ec2start"
      /\ resourceType schedule +:+ eventType schedule <> "ec2stop"
      /\ resourceType schedule +:+ eventType schedule <> "lightsailstart"
      /\ resourceType schedule +:+ eventType schedule <> "lightsailstop").
Proof.
  destruct (String.eqb_spec (resourceType schedule +:+ eventType schedule) "ec2start") as [H1|H1];
    [left; exists KindEc2, Start; exact H1 |].
  destruct (String.eqb_spec (resourceType schedule +:+ eventType schedule) "ec2stop") as [H2|H2];
    [left; exists KindEc2, Stop; exact H2 |].
  destruct (String.eqb_spec (resourceType schedule +:+ eventType schedule) "lightsailstart")
    as [H3|H3]; [left; exists KindLightsail, Start; exact H3 |].
  destruct (String.eqb_spec (resourceType schedule +:+ eventType schedule) "lightsailstop")
    as [H4|H4]; [left; exists KindLightsail, Stop; exact H4 |].
  right. auto.
Qed.

(** X1: the callback sends a command only after all three gates have let
    the rule pass, its key has selected a kind and an action, and the state
    table has said Fire; the command is then the one of that kind and action
    for the rule's [resourceId], and the item says that the instruction was
    given. *)
Theorem command_sent_only_on_fire (tz : Z) (scope : Scope) (schedule : EventSchedule)
    (w : World) :
  dispatched (snd (scheduleCallback tz scope schedule w)) <> dispatched w ->
  timeWindowMatches tz scope (clock w (reads w)) schedule = true
  /\ weekdayAllowed scope schedule = true
  /\ holidayCancelled scope schedule = false
  /\ exists kind action,
      resourceType schedule +:+ eventType schedule = kindName kind +:+ actionName action
      /\ actionDecider (locate scope kind (resourceId schedule)) action = Fire
      /\ dispatched (snd (scheduleCallback tz scope schedule w))
         = (dispatched w ++ [commandOf kind action (resourceId schedule)])%list
      /\ details (fst (scheduleCallback tz scope schedule w))
         = match action with
           | Start => MESSAGES.INSTANCE_START_INSTRUCTED
           | Stop => MESSAGES.INSTANCE_STOP_INSTRUCTED
           end.
Proof.
  rewrite scheduleCallback_eq.
  destruct (timeWindowMatches tz scope (clock w (reads w)) schedule); cbn [negb];
    [| intros Hsent; exfalso; apply Hsent; reflexivity].
  destruct (weekdayAllowed scope schedule); cbn [negb];
    [| intros Hsent; exfalso; apply Hsent; reflexivity].
  destruct (holidayCancelled scope schedule);
    [intros Hsent; exfalso; apply Hsent; reflexivity |].
  intros Hsent. repeat split.
  destruct (switch_key_cases schedule) as [(kind & action & Hkey) | (H1 & H2 & H3 & H4)].
  - rewrite (switch_enacts_table_by_key scope schedule (tick w) kind action Hkey) in *.
    exists kind, action. split; [exact Hkey |].
    destruct (actionDecider (locate scope kind (resourceId schedule)) action) as [|reason].
    + repeat split.
    + exfalso. apply Hsent. destruct reason; reflexivity.
  - exfalso. apply Hsent.
    rewrite (switch_falls_through scope schedule (tick w) H1 H2 H3 H4). reflexivity.
Qed.

Lemma command_sent_only_on_fire_witness :
  timeWindowMatches Sample.tz (Sample.scopeAt Sample.wednesdayMorning)
    (clock (Sample.worldAfterFetch Sample.wednesdayMorning)
       (reads (Sample.worldAfterFetch Sample.wednesdayMorning))) Sample.startAtNine = true
  /\ weekdayAllowed (Sample.scopeAt Sample.wednesdayMorning) Sample.startAtNine = true.
Proof.
  destruct (command_sent_only_on_fire Sample.tz (Sample.scopeAt Sample.wednesdayMorning)
              Sample.startAtNine (Sample.worldAfterFetch Sample.wednesdayMorning))
    as (Hwindow & Hweekday & _).
  - vm_compute. discriminate.
  - split; [exact Hwindow | exact Hweekday].
Defined.

(** ** What one invocation leaves behind *)

(** One schedule: one clock reading, and no command or one command for the
    schedule's [resourceId], added after those already sent. *)
Lemma scheduleCallback_footprint (tz : Z) (scope : Scope) (schedule : EventSchedule)
    (w : World) :
  reads (snd (scheduleCallback tz scope schedule w)) = S (reads w)
  /\ (dispatched (snd (scheduleCallback tz scope schedule w)) = dispatched w
      \/ exists command,
          dispatched (snd (scheduleCallback tz scope schedule w))
          = (dispatched w ++ [command])%list
          /\ commandTargets command = [resourceId schedule]).
Proof.
  rewrite scheduleCallback_eq.
  repeat match goal with |- context [if ?b then _ else _] => destruct b end;
    try (split; [reflexivity | left; reflexivity]).
  destruct (switch_key_cases schedule) as [(kind & action & Hkey) | (H1 & H2 & H3 & H4)].
  - rewrite (switch_enacts_table_by_key scope schedule (tick w) kind action Hkey).
    destruct (actionDecider (locate scope kind (resourceId schedule)) action) as [|reason].
    + split; [reflexivity | right].
      exists (commandOf kind action (resourceId schedule)).
      split; [reflexivity | destruct kind, action; reflexivity].
    + destruct reason; (split; [reflexivity | left; reflexivity]).
  - rewrite (switch_falls_through scope schedule (tick w) H1 H2 H3 H4).
    split; [reflexivity | left; reflexivity].
Qed.

Lemma mapM_scheduleCallback_footprint (tz : Z) (scope : Scope) (rules : list EventSchedule)
    (w : World) :
  reads (snd (mapM (scheduleCallback tz scope) rules w)) = (reads w + length rules)%nat
  /\ exists fired commands,
      fired `sublist_of` rules
      /\ dispatched (snd (mapM (scheduleCallback tz scope) rules w))
         = (dispatched w ++ commands)%list
      /\ map commandTargets commands = map (fun schedule => [resourceId schedule]) fired.
Proof.
  revert w. induction rules as [|schedule rules IH]; intros w.
  - cbn [mapM ret snd length]. split; [lia |].
    exists [], []. rewrite app_nil_r. repeat split. constructor.
  - rewrite mapM_cons. cbn [snd length].
    destruct (scheduleCallback_footprint tz scope schedule w) as [Hreads Hsent].
    destruct (IH (snd (scheduleCallback tz scope schedule w)))
      as [Hreads' (fired & commands & Hsub & Hsent' & Htargets)].
    split; [rewrite Hreads', Hreads; lia |].
    destruct Hsent as [Hsame | (command & Hone & Htarget)].
    + exists fired, commands. rewrite Hsent', Hsame.
      repeat split; [apply sublist_cons, Hsub | exact Htargets].
    + exists (schedule :: fired), (command :: commands).
      rewrite Hsent', Hone, <- app_assoc. cbn [app map]. rewrite Htarget, Htargets.
      repeat split. apply sublist_skip, Hsub.
Qed.

(** X2: an invocation reads the clock once and then once per schedule, and
    it only adds to the commands already sent: at most one command per
    schedule, in the order of the schedules, each addressed to the
    [resourceId] of the schedule it was sent for. *)
Theorem handler_commands_follow_schedules (tz : Z) (event : AWSLambdaEvent) (w : World) :
  reads (snd (handler tz event w)) = S (reads w + length (schedules event))
  /\ exists fired commands,
      fired `sublist_of` schedules event
      /\ dispatched (snd (handler tz event w)) = (dispatched w ++ commands)%list
      /\ map commandTargets commands = map (fun schedule => [resourceId schedule]) fired
      /\ (length commands <= length (schedules event))%nat.
Proof.
  unfold handler, handlerResults, bind.
  destruct (handlerScope w) as [scope w1] eqn:Hscope.
  assert (Hw1 : reads w1 = S (reads w) /\ dispatched w1 = dispatched w).
  { unfold handlerScope, bind, newDate, axios_get, ec2_describeInstances,
      lightsail_getInstances, ret in Hscope.
    inversion Hscope. split; reflexivity. }
  destruct Hw1 as [Hreads1 Hsent1].
  destruct (mapM_scheduleCallback_footprint tz scope (schedules event) w1)
    as [Hreads (fired & commands & Hsub & Hsent & Htargets)].
  destruct (mapM (scheduleCallback tz scope) (schedules event) w1) as [results w2].
  cbn [fst snd console_log ret reads dispatched] in *.
  split; [rewrite Hreads, Hreads1; lia |].
  exists fired, commands. rewrite Hsent, Hsent1.
  repeat split; [exact Hsub | exact Htargets |].
  apply sublist_length in Hsub.
  apply (f_equal (@length _)) in Htargets. rewrite !length_map in Htargets. lia.
Qed.

(** ** What a result depends on *)

Lemma gates_withListings (tz : Z) (scope : Scope)
    (ec2Result' : EC2.DescribeInstancesCommandOutput)
    (lightsailResult' : Lightsail.GetInstancesCommandOutput)
    (today : Date.t) (schedule : EventSchedule) :
  timeWindowMatches tz (withListings scope ec2Result' lightsailResult') today schedule
  = timeWindowMatches tz scope today schedule
  /\ weekdayAllowed (withListings scope ec2Result' lightsailResult') schedule
     = weekdayAllowed scope schedule
  /\ holidayCancelled (withListings scope ec2Result' lightsailResult') schedule
     = holidayCancelled scope schedule.
Proof. repeat split. Qed.

(** X3: a rule stopped by one of the three gates gets its item without the
    listings being looked at: whatever the two listings contain, the item is
    the same, and nothing is sent. *)
Theorem gate_skip_ignores_listings (tz : Z) (scope : Scope) (schedule : EventSchedule)
    (w : World) (ec2Result' : EC2.DescribeInstancesCommandOutput)
    (lightsailResult' : Lightsail.GetInstancesCommandOutput) :
  timeWindowMatches tz scope (clock w (reads w)) schedule = false
  \/ weekdayAllowed scope schedule = false
  \/ holidayCancelled scope schedule = true ->
  scheduleCallback tz (withListings scope ec2Result' lightsailResult') schedule w
  = scheduleCallback tz scope schedule w
  /\ snd (scheduleCallback tz scope schedule w) = tick w.
Proof.
  intros Hgate. rewrite !scheduleCallback_eq.
  destruct (gates_withListings tz scope ec2Result' lightsailResult'
              (clock w (reads w)) schedule) as (-> & -> & ->).
  destruct (timeWindowMatches tz scope (clock w (reads w)) schedule); cbn [negb];
    [| split; reflexivity].
  destruct (weekdayAllowed scope schedule); cbn [negb]; [| split; reflexivity].
  destruct (holidayCancelled scope schedule); [split; reflexivity |].
  destruct Hgate as [H | [H | H]]; discriminate H.
Qed.

(** On a Sunday the listings play no part. *)
Lemma gate_skip_ignores_listings_witness :
  scheduleCallback Sample.tz
    (withListings (Sample.scopeAt Sample.sundayMorning) Sample.ec2Bare Sample.lightsailBare)
    Sample.startAtNine (Sample.worldAfterFetch Sample.sundayMorning)
  = scheduleCallback Sample.tz (Sample.scopeAt Sample.sundayMorning)
      Sample.startAtNine (Sample.worldAfterFetch Sample.sundayMorning).
Proof.
  apply (gate_skip_ignores_listings Sample.tz (Sample.scopeAt Sample.sundayMorning)
           Sample.startAtNine (Sample.worldAfterFetch Sample.sundayMorning)
           Sample.ec2Bare Sample.lightsailBare).
  right. left. vm_compute. reflexivity.
Defined.

(** X4: a rule whose key selects a kind is decided from the listing of that
    kind alone: replacing the other listing changes neither the item nor
    what is sent. *)
Theorem rule_reads_only_its_kind (tz : Z) (scope : Scope) (schedule : EventSchedule)
    (w : World) (kind : ResourceKind) (action : Action)
    (ec2Result' : EC2.DescribeInstancesCommandOutput)
    (lightsailResult' : Lightsail.GetInstancesCommandOutput) :
  resourceType schedule +:+ eventType schedule = kindName kind +:+ actionName action ->
  match kind with
  | KindEc2 => ec2Result' = ec2Result scope
  | KindLightsail => lightsailResult' = lightsailResult scope
  end ->
  scheduleCallback tz (withListings scope ec2Result' lightsailResult') schedule w
  = scheduleCallback tz scope schedule w.
Proof.
  intros Hkey Hsame. rewrite !scheduleCallback_eq.
  destruct (gates_withListings tz scope ec2Result' lightsailResult'
              (clock w (reads w)) schedule) as (-> & -> & ->).
  repeat match goal with |- context [if ?b then _ else _] => destruct b end;
    try reflexivity.
  rewrite !(switch_enacts_table_by_key _ schedule (tick w) kind action Hkey).
  destruct kind; cbn [locate withListings ec2Result lightsailResult]; rewrite Hsame;
    reflexivity.
Qed.

(** An EC2 rule is decided alike with and without the Lightsail listing. *)
Lemma rule_reads_only_its_kind_witness :
  scheduleCallback Sample.tz
    (withListings (Sample.scopeAt Sample.wednesdayMorning) Sample.ec2 Sample.lightsailBare)
    Sample.startAtNine (Sample.worldAfterFetch Sample.wednesdayMorning)
  = scheduleCallback Sample.tz (Sample.scopeAt Sample.wednesdayMorning)
      Sample.startAtNine (Sample.worldAfterFetch Sample.wednesdayMorning).
Proof.
  apply (rule_reads_only_its_kind Sample.tz (Sample.scopeAt Sample.wednesdayMorning)
           Sample.startAtNine (Sample.worldAfterFetch Sample.wednesdayMorning)
           KindEc2 Start Sample.ec2 Sample.lightsailBare); reflexivity.
Defined.

(** ** The current date *)

(** X5: the handler's current date is the first clock reading with its
    seconds and milliseconds dropped, nine hours later; it is a whole minute,
    and at most one minute short of nine hours after the reading. *)
Theorem currentDate_is_minute_plus_nine_hours (w : World) :
  currentDate (fst (handlerScope w))
  = Date.msPerMinute * (clock w (reads w) / Date.msPerMinute)
    + JST_TZ_OFFSET * Date.msPerHour
  /\ currentDate (fst (handlerScope w)) mod Date.msPerMinute = 0
  /\ clock w (reads w) + JST_TZ_OFFSET * Date.msPerHour - Date.msPerMinute
     < currentDate (fst (handlerScope w))
     <= clock w (reads w) + JST_TZ_OFFSET * Date.msPerHour.
Proof.
  rewrite handlerScope_currentDate.
  unfold Date.setHours, Date.startOfDay, Date.day, Date.getHours, Date.getMinutes,
    Date.timeWithinDay, Date.msPerDay, Date.msPerHour, Date.msPerMinute, Date.msPerSecond,
    JST_TZ_OFFSET.
  generalize (clock w (reads w)). intros now.
  repeat split; Z.div_mod_to_equations; lia.
Qed.

(** X6: the weekday and the date key are those of the shifted date. While
    the clock shows an hour before 15 the current date lies on the clock's
    calendar day; from 15:00 on it lies on the next day, and the weekday
    tested by the weekday filter is the one after the clock's. *)
Theorem currentDate_day_and_weekday (w : World) :
  let now := clock w (reads w) in
  let carry := if Date.getHours now <? 15 then 0 else 1 in
  Date.day (currentDate (fst (handlerScope w))) = Date.day now + carry
  /\ Date.getDay (currentDate (fst (handlerScope w))) = (Date.getDay now + carry) mod 7
  /\ Date.getHours (currentDate (fst (handlerScope w)))
     = (Date.getHours now + JST_TZ_OFFSET) mod 24
  /\ Date.getMinutes (currentDate (fst (handlerScope w))) = Date.getMinutes now.
Proof.
  cbv zeta. rewrite handlerScope_currentDate.
  generalize (clock w (reads w)). intros now.
  assert (Hday : Date.day (Date.setHours now (Date.getHours now + JST_TZ_OFFSET)
                             (Date.getMinutes now) 0 0)
                 = Date.day now + (if Date.getHours now <? 15 then 0 else 1)).
  { unfold Date.setHours, Date.startOfDay, Date.day, Date.getHours, Date.getMinutes,
      Date.timeWithinDay, Date.msPerDay, Date.msPerHour, Date.msPerMinute, Date.msPerSecond,
      JST_TZ_OFFSET.
    destruct (Z.ltb_spec (now mod 86400000 / 3600000) 15);
      Z.div_mod_to_equations; lia. }
  split; [exact Hday |]. split; [| split].
  - unfold Date.getDay. rewrite Hday, Zplus_mod_idemp_l. f_equal. lia.
  - unfold Date.setHours, Date.startOfDay, Date.day, Date.getHours, Date.getMinutes,
      Date.timeWithinDay, Date.msPerDay, Date.msPerHour, Date.msPerMinute, Date.msPerSecond,
      JST_TZ_OFFSET.
    Z.div_mod_to_equations. lia.
  - unfold Date.setHours, Date.startOfDay, Date.day, Date.getHours, Date.getMinutes,
      Date.timeWithinDay, Date.msPerDay, Date.msPerHour, Date.msPerMinute, Date.msPerSecond,
      JST_TZ_OFFSET.
    Z.div_mod_to_equations. lia.
Qed.

(** ** The window, in minutes of the day *)

(** X7: as long as the schedule is reached on the calendar day on which the
    invocation began, a rule is inside its window iff the minute of the day
    shown by the clock is the rule's minute of the day or one of the five
    minutes after it. Seconds play no part, and an invocation five minutes
    after one that matched at the rule's minute matches again. *)
Theorem window_open_for_six_minutes (tz : Z) (w : World) (today : Date.t)
    (schedule : EventSchedule) :
  Date.day today = Date.day (clock w (reads w)) ->
  timeWindowMatches tz (fst (handlerScope w)) today schedule = true
  <-> exists late,
      0 <= late <= 5
      /\ 60 * Date.getHours (clock w (reads w)) + Date.getMinutes (clock w (reads w))
         = 60 * eventHour schedule + eventMinute schedule + late.
Proof.
  intros Hday. rewrite (timeWindowMatches_minutes tz w today schedule Hday). split.
  - intros Hrange.
    exists (60 * (Date.getHours (clock w (reads w)) - eventHour schedule)
            + (Date.getMinutes (clock w (reads w)) - eventMinute schedule)).
    lia.
  - intros (late & Hlate & Heq). lia.
Qed.

(** At 09:02:30 a rule for 09:00 is two minutes late and inside its window. *)
Lemma window_open_for_six_minutes_witness :
  timeWindowMatches Sample.tz (fst (handlerScope (Sample.worldAt Sample.wednesdayMorning)))
    Sample.wednesdayMorning Sample.startAtNine = true.
Proof.
  apply (window_open_for_six_minutes Sample.tz (Sample.worldAt Sample.wednesdayMorning)
           Sample.wednesdayMorning Sample.startAtNine).
  - reflexivity.
  - exists 2. vm_compute. repeat split; discriminate.
Defined.

(** ** Runs that begin in the same minute *)

Lemma setHours_cut_to_minute (now : Date.t) :
  Date.setHours now (Date.getHours now + JST_TZ_OFFSET) (Date.getMinutes now) 0 0
  = Date.msPerMinute * (now / Date.msPerMinute) + JST_TZ_OFFSET * Date.msPerHour.
Proof.
  unfold Date.setHours, Date.startOfDay, Date.day, Date.getHours, Date.getMinutes,
    Date.timeWithinDay, Date.msPerDay, Date.msPerHour, Date.msPerMinute, Date.msPerSecond,
    JST_TZ_OFFSET.
  Z.div_mod_to_equations. lia.
Qed.

(** X8: the results depend on the clock through the minute of the first
    reading and the calendar days of the later readings only. Two
    invocations with the same event, calendar and listings that begin within
    the same minute, and whose later readings fall on the same days, compute
    the same results and send the same commands. *)
Theorem results_ignore_seconds (tz : Z) (event : AWSLambdaEvent) (w1 w2 : World) :
  reads w1 = reads w2 ->
  clock w1 (reads w1) / Date.msPerMinute = clock w2 (reads w2) / Date.msPerMinute ->
  holidayApi w1 = holidayApi w2 ->
  ec2Listing w1 = ec2Listing w2 ->
  lightsailListing w1 = lightsailListing w2 ->
  dispatched w1 = dispatched w2 ->
  (forall n, (reads w1 < n)%nat -> Date.day (clock w1 n) = Date.day (clock w2 n)) ->
  fst (handlerResults tz event w1) = fst (handlerResults tz event w2)
  /\ dispatched (snd (handlerResults tz event w1))
     = dispatched (snd (handlerResults tz event w2)).
Proof.
  intros Hreads Hminute Hapi Hec2 Hlightsail Hsent Hdays.
  unfold handlerResults, bind.
  assert (Hscope : fst (handlerScope w1) = fst (handlerScope w2)).
  { unfold handlerScope, bind, newDate, axios_get, ec2_describeInstances,
      lightsail_getInstances, ret. cbn [fst snd holidayApi ec2Listing lightsailListing].
    rewrite !setHours_cut_to_minute, Hminute, Hapi, Hec2, Hlightsail. reflexivity. }
  assert (Hsame : sameDaysAhead (snd (handlerScope w1)) (snd (handlerScope w2))).
  { unfold sameDaysAhead, handlerScope, bind, newDate, axios_get, ec2_describeInstances,
      lightsail_getInstances, ret. cbn [fst snd reads dispatched clock].
    repeat split; [congruence | exact Hsent |].
    intros n Hn. apply Hdays. lia. }
  destruct (handlerScope w1) as [scope1 w1'], (handlerScope w2) as [scope2 w2'].
  cbn [fst snd] in Hscope, Hsame. subst scope2.
  destruct (mapM_scheduleCallback_sameDaysAhead tz scope1 (schedules event) w1' w2' Hsame)
    as [Hitems (_ & Hsent' & _)].
  split; [exact Hitems | exact Hsent'].
Qed.

(** An invocation at 09:02:30 and one at 09:02:35.5. *)
Lemma results_ignore_seconds_witness :
  fst (handlerResults Sample.tz {| schedules := [Sample.startAtNine; Sample.unknownKind] |}
         (Sample.worldAt Sample.wednesdayMorning))
  = fst (handlerResults Sample.tz {| schedules := [Sample.startAtNine; Sample.unknownKind] |}
           (Sample.worldAt (Sample.wednesdayMorning + 5500))).
Proof.
  apply (results_ignore_seconds Sample.tz
           {| schedules := [Sample.startAtNine; Sample.unknownKind] |}
           (Sample.worldAt Sample.wednesdayMorning)
           (Sample.worldAt (Sample.wednesdayMorning + 5500)));
    reflexivity.
Defined.

(** ** Schedules do not influence one another *)

Lemma scheduleCallback_clock (tz : Z) (scope : Scope) (schedule : EventSchedule) (w : World) :
  clock (snd (scheduleCallback tz scope schedule w)) = clock w.
Proof.
  rewrite scheduleCallback_eq.
  repeat match goal with |- context [if ?b then _ else _] => destruct b end;
    try reflexivity.
  destruct (switchResourceEventType_effect scope schedule) as [item [Hw | [command Hw]]];
    rewrite Hw; reflexivity.
Qed.

(** The item depends on the world through the day of the next reading only. *)
Lemma scheduleCallback_item_same_day (tz : Z) (scope : Scope) (schedule : EventSchedule)
    (w1 w2 : World) :
  Date.day (clock w1 (reads w1)) = Date.day (clock w2 (reads w2)) ->
  fst (scheduleCallback tz scope schedule w1) = fst (scheduleCallback tz scope schedule w2).
Proof.
  intros Hday. rewrite !scheduleCallback_eq. unfold timeWindowMatches.
  rewrite (eventDateOf_same_day _ _ schedule Hday). cbv zeta.
  repeat match goal with |- context [if ?b then _ else _] => destruct b end;
    try reflexivity.
  destruct (switchResourceEventType_effect scope schedule) as [item [Hw | [command Hw]]];
    rewrite !Hw; reflexivity.
Qed.

(** X9: while the clock stays on one calendar day, every schedule of the
    list gets the item it would get were it evaluated alone: neither its
    place in the list nor the schedules before it, fired or not, change
    it. *)
Theorem schedules_evaluated_independently (tz : Z) (scope : Scope)
    (rules : list EventSchedule) (w : World) :
  (forall n, (reads w <= n)%nat -> Date.day (clock w n) = Date.day (clock w (reads w))) ->
  fst (mapM (scheduleCallback tz scope) rules w)
  = map (fun schedule => fst (scheduleCallback tz scope schedule w)) rules.
Proof.
  revert w. induction rules as [|schedule rules IH]; intros w Hdays; [reflexivity |].
  rewrite mapM_cons. cbn [fst map]. f_equal.
  pose proof (scheduleCallback_footprint tz scope schedule w) as [Hreads _].
  pose proof (scheduleCallback_clock tz scope schedule w) as Hclock.
  rewrite IH.
  - apply map_ext. intros other. apply scheduleCallback_item_same_day.
    rewrite Hclock, Hreads. apply Hdays. lia.
  - intros n Hn. rewrite Hclock, Hreads in *.
    rewrite (Hdays n) by lia. rewrite (Hdays (S (reads w))) by lia. reflexivity.
Qed.

(** Three schedules on a Wednesday morning. *)
Lemma schedules_evaluated_independently_witness :
  fst (mapM (scheduleCallback Sample.tz (Sample.scopeAt Sample.wednesdayMorning))
         [Sample.startAtNine; Sample.unknownKind; Sample.startAtNine]
         (Sample.worldAfterFetch Sample.wednesdayMorning))
  = map (fun schedule =>
           fst (scheduleCallback Sample.tz (Sample.scopeAt Sample.wednesdayMorning) schedule
                  (Sample.worldAfterFetch Sample.wednesdayMorning)))
      [Sample.startAtNine; Sample.unknownKind; Sample.startAtNine].
Proof.
  apply (schedules_evaluated_independently Sample.tz
           (Sample.scopeAt Sample.wednesdayMorning)
           [Sample.startAtNine; Sample.unknownKind; Sample.startAtNine]
           (Sample.worldAfterFetch Sample.wednesdayMorning)).
  intros n Hn. reflexivity.
Defined.

(** ** Several entries for one identifier *)

Lemma find_first {A} (f : A -> bool) (l : list A) (x : A) :
  find f l = Some x ->
  exists before after,
    l = (before ++ x :: after)%list /\ f x = true /\ forall y, y ∈ before -> f y = false.
Proof.
  induction l as [|a l IH]; [discriminate |].
  cbn [find]. destruct (f a) eqn:Hfa.
  - intros [= ->]. exists [], l. repeat split; [exact Hfa |].
    intros y Hy. apply elem_of_nil in Hy. destruct Hy.
  - intros Hfind. destruct (IH Hfind) as (before & after & -> & Hx & Hbefore).
    exists (a :: before), after. repeat split; [exact Hx |].
    intros y Hy. apply elem_of_cons in Hy. destruct Hy as [-> | Hy]; auto.
Qed.

(** X10: when several entries of a listing match, the lookup returns the
    first in listing order (for EC2: reservation by reservation, and within
    a reservation in the order of its instances); no entry before the one
    returned matches. *)
Theorem search_returns_first_match (resourceId : string)
    (ec2Result : EC2.DescribeInstancesCommandOutput)
    (lightsailResult : Lightsail.GetInstancesCommandOutput) :
  (forall instance,
      searchEc2Instance resourceId ec2Result = Some instance ->
      exists reservations before after,
        EC2.Reservations ec2Result = Some reservations
        /\ flat_map (fun reservation => default [] (EC2.Instances reservation)) reservations
           = (before ++ instance :: after)%list
        /\ forall earlier, earlier ∈ before -> EC2.InstanceId earlier <> Some resourceId)
  /\ (forall instance,
         searchLightsailInstance resourceId lightsailResult = Some instance ->
         exists before after,
           Lightsail.instances lightsailResult = Some (before ++ instance :: after)%list
           /\ forall earlier, earlier ∈ before ->
                ~ (Lightsail.name earlier = Some resourceId
                   /\ Lightsail.resourceType earlier = Some "Instance")).
Proof.
  unfold searchEc2Instance, searchLightsailInstance. split.
  - intros instance Hfind.
    destruct (EC2.Reservations ec2Result) as [reservations|]; [| discriminate Hfind].
    cbn [mbind option_bind] in Hfind.
    destruct (find_first _ _ _ Hfind) as (before & after & Heq & _ & Hbefore).
    exists reservations, before, after. repeat split; [exact Heq |].
    intros earlier Hin. specialize (Hbefore earlier Hin).
    apply bool_decide_eq_false in Hbefore. exact Hbefore.
  - intros instance Hfind.
    destruct (Lightsail.instances lightsailResult) as [instances|]; [| discriminate Hfind].
    cbn [mbind option_bind] in Hfind.
    destruct (find_first _ _ _ Hfind) as (before & after & -> & _ & Hbefore).
    exists before, after. split; [reflexivity |].
    intros earlier Hin [Hname Htype]. specialize (Hbefore earlier Hin).
    apply andb_false_iff in Hbefore.
    destruct Hbefore as [Hn | Hn]; apply bool_decide_eq_false in Hn; auto.
Qed.

(** ** What the item tells *)

Lemma app_singleton_neq {A} (l : list A) (x : A) : (l ++ [x])%list <> l.
Proof.
  intros Heq. apply (f_equal (@length A)) in Heq. rewrite length_app in Heq.
  cbn [length] in Heq. lia.
Qed.

(** X11: the text of an item tells whether a command went out: the item
    says that the start or the stop was instructed iff the callback sent a
    command. *)
Theorem item_says_instructed_iff_sent (tz : Z) (scope : Scope) (schedule : EventSchedule)
    (w : World) :
  (details (fst (scheduleCallback tz scope schedule w)) = MESSAGES.INSTANCE_START_INSTRUCTED
   \/ details (fst (scheduleCallback tz scope schedule w)) = MESSAGES.INSTANCE_STOP_INSTRUCTED)
  <-> dispatched (snd (scheduleCallback tz scope schedule w)) <> dispatched w.
Proof.
  rewrite scheduleCallback_eq.
  destruct (negb (timeWindowMatches tz scope (clock w (reads w)) schedule)).
  { cbn [fst snd details createResultItem].
    split; [intros [H | H]; message_neq H | intros H; exfalso; apply H; reflexivity]. }
  destruct (negb (weekdayAllowed scope schedule)).
  { cbn [fst snd details createResultItem].
    split; [intros [H | H]; message_neq H | intros H; exfalso; apply H; reflexivity]. }
  destruct (holidayCancelled scope schedule).
  { cbn [fst snd details createResultItem].
    split; [intros [H | H]; message_neq H | intros H; exfalso; apply H; reflexivity]. }
  destruct (switch_key_cases schedule) as [(kind & action & Hkey) | (H1 & H2 & H3 & H4)].
  - rewrite (switch_enacts_table_by_key scope schedule (tick w) kind action Hkey).
    destruct (actionDecider (locate scope kind (resourceId schedule)) action) as [|reason].
    + cbn [enact fst snd details createResultItem]. split.
      * intros _. apply app_singleton_neq.
      * intros _. destruct action; [left | right]; reflexivity.
    + destruct reason, action; cbn [enact fst snd details createResultItem];
        (split; [intros [H | H]; message_neq H | intros H; exfalso; apply H; reflexivity]).
  - rewrite (switch_falls_through scope schedule (tick w) H1 H2 H3 H4).
    cbn [fst snd details createResultItem].
    split; [intros [H | H]; message_neq H | intros H; exfalso; apply H; reflexivity].
Qed.

(** ** The date key *)

Lemma string_length_app (a b : string) :
  String.length (a +:+ b) = (String.length a + String.length b)%nat.
Proof. induction a as [|c a IH]; [reflexivity |]. simpl. f_equal. exact IH. Qed.

Lemma pretty_N_go_digit (x : N) (s : string) :
  (0 < x < 10)%N -> String.length (pretty_N_go x s) = S (String.length s).
Proof.
  intros Hx. rewrite pretty_N_go_step by lia.
  rewrite (N.div_small x 10) by lia. rewrite pretty_N_go_0. reflexivity.
Qed.

Lemma pretty_N_go_two_digits (x : N) (s : string) :
  (10 <= x < 100)%N -> String.length (pretty_N_go x s) = S (S (String.length s)).
Proof.
  intros Hx. rewrite pretty_N_go_step by lia.
  rewrite pretty_N_go_digit; [reflexivity |].
  split; [apply N.div_str_pos; lia | apply N.Div0.div_lt_upper_bound; lia].
Qed.

Lemma pretty_N_go_three_digits (x : N) (s : string) :
  (100 <= x < 1000)%N -> String.length (pretty_N_go x s) = S (S (S (String.length s))).
Proof.
  intros Hx. rewrite pretty_N_go_step by lia.
  rewrite pretty_N_go_two_digits; [reflexivity |].
  split; [apply N.div_le_lower_bound; lia | apply N.Div0.div_lt_upper_bound; lia].
Qed.

Lemma pretty_N_go_four_digits (x : N) (s : string) :
  (1000 <= x < 10000)%N ->
  String.length (pretty_N_go x s) = S (S (S (S (String.length s)))).
Proof.
  intros Hx. rewrite pretty_N_go_step by lia.
  rewrite pretty_N_go_three_digits; [reflexivity |].
  split; [apply N.div_le_lower_bound; lia | apply N.Div0.div_lt_upper_bound; lia].
Qed.

(** The number of characters of [String(n)]. *)
Lemma numberToString_length (n : Z) :
  (1 <= n < 10 -> String.length (numberToString n) = 1%nat)
  /\ (10 <= n < 100 -> String.length (numberToString n) = 2%nat)
  /\ (1000 <= n < 10000 -> String.length (numberToString n) = 4%nat).
Proof.
  unfold numberToString, pretty, pretty_Z.
  destruct n as [|p|p]; try (repeat split; intros; lia).
  unfold pretty, pretty_positive, pretty, pretty_N.
  destruct (decide (N.pos p = 0%N)) as [Hz|_]; [discriminate Hz |].
  repeat split; intros Hn.
  - apply (pretty_N_go_digit (N.pos p) ""). lia.
  - apply (pretty_N_go_two_digits (N.pos p) ""). lia.
  - apply (pretty_N_go_four_digits (N.pos p) ""). lia.
Qed.

(** [padStart(2, "0")] puts one zero before a single digit and leaves two
    digits alone. *)
Lemma padStart_two_digits (n : Z) :
  1 <= n < 100 ->
  padStart 2 "0" (numberToString n)
  = (if n <? 10 then "0" +:+ numberToString n else numberToString n)
  /\ String.length (padStart 2 "0" (numberToString n)) = 2%nat.
Proof.
  intros Hn. destruct (numberToString_length n) as (H1 & H2 & _).
  unfold padStart. destruct (Z.ltb_spec n 10).
  - rewrite H1 by lia. split; [reflexivity |].
    cbn [Nat.sub repeatString]. rewrite !string_length_app, H1 by lia. reflexivity.
  - rewrite H2 by lia. split; [reflexivity |].
    cbn [Nat.sub repeatString]. rewrite string_length_app, H2 by lia. reflexivity.
Qed.

(** Month and day of the month of a civil date. *)
Lemma civilFromDays_ranges (days : Z) :
  1 <= Date.c_month (Date.civilFromDays days) <= 12
  /\ 1 <= Date.c_mday (Date.civilFromDays days) <= 31.
Proof.
  unfold Date.civilFromDays. cbv zeta. cbn [Date.c_month Date.c_mday].
  pose proof (Z.mod_pos_bound (days + 719468) 146097 ltac:(lia)) as Hdoe.
  generalize dependent ((days + 719468) mod 146097). intros doe Hdoe.
  assert (Hdoy : 0 <= doe - (365 * ((doe - doe / 1460 + doe / 36524 - doe / 146096) / 365)
                              + (doe - doe / 1460 + doe / 36524 - doe / 146096) / 365 / 4
                              - (doe - doe / 1460 + doe / 36524 - doe / 146096) / 365 / 100)
                      <= 365).
  { Z.div_mod_to_equations. lia. }
  generalize dependent (doe - (365 * ((doe - doe / 1460 + doe / 36524 - doe / 146096) / 365)
                               + (doe - doe / 1460 + doe / 36524 - doe / 146096) / 365 / 4
                               - (doe - doe / 1460 + doe / 36524 - doe / 146096) / 365 / 100)).
  intros doy Hdoy.
  destruct (Z.ltb_spec ((5 * doy + 2) / 153) 10); Z.div_mod_to_equations; lia.
Qed.

(** X12: for a current date in the years 1000 to 9999 the date key has the
    form of the calendar's keys: the four digits of the year, a dash, the
    month in two characters, a dash, and the day of the month in two
    characters, a single digit being preceded by a zero; ten characters in
    all. *)
Theorem date_key_format (w : World) :
  let scope := fst (handlerScope w) in
  let year := Date.getFullYear (currentDate scope) in
  let month := Date.getMonth (currentDate scope) + 1 in
  let mday := Date.getDate (currentDate scope) in
  1000 <= year <= 9999 ->
  1 <= month <= 12
  /\ 1 <= mday <= 31
  /\ currentDateStr scope
     = numberToString year
       +:+ "-" +:+ (if month <? 10 then "0" +:+ numberToString month
                    else numberToString month)
       +:+ "-" +:+ (if mday <? 10 then "0" +:+ numberToString mday
                    else numberToString mday)
  /\ String.length (numberToString year) = 4%nat
  /\ String.length (currentDateStr scope) = 10%nat.
Proof.
  cbv zeta. intros Hyear. rewrite handlerScope_currentDateStr. cbv zeta.
  generalize dependent (currentDate (fst (handlerScope w))). intros date Hyear.
  unfold Date.getMonth, Date.getDate in *.
  destruct (civilFromDays_ranges (Date.day date)) as [Hmonth Hmday].
  replace (Date.c_month (Date.civilFromDays (Date.day date)) - 1 + 1)
    with (Date.c_month (Date.civilFromDays (Date.day date))) by lia.
  destruct (padStart_two_digits (Date.c_month (Date.civilFromDays (Date.day date))))
    as [Hm Hmlen]; [lia |].
  destruct (padStart_two_digits (Date.c_mday (Date.civilFromDays (Date.day date))))
    as [Hd Hdlen]; [lia |].
  destruct (numberToString_length (Date.getFullYear date)) as (_ & _ & Hy).
  specialize (Hy ltac:(lia)).
  split; [exact Hmonth |]. split; [exact Hmday |].
  split; [rewrite Hm, Hd; reflexivity |]. split; [exact Hy |].
  rewrite !string_length_app, Hy, Hmlen, Hdlen. reflexivity.
Qed.

(** 8 January 2024. *)
Lemma date_key_format_witness :
  String.length (currentDateStr (fst (handlerScope (Sample.worldAt Sample.holidayMondayMorning))))
  = 10%nat.
Proof.
  apply (date_key_format (Sample.worldAt Sample.holidayMondayMorning)).
  vm_compute. split; discriminate.
Defined.

(** ** Fields out of range *)

Lemma clock_fields_range (d : Date.t) :
  0 <= Date.getHours d <= 23 /\ 0 <= Date.getMinutes d <= 59.
Proof.
  unfold Date.getHours, Date.getMinutes, Date.timeWithinDay, Date.msPerDay, Date.msPerHour,
    Date.msPerMinute.
  split; Z.div_mod_to_equations; lia.
Qed.

(** X13: [eventHour] and [eventMinute] are not checked against 0..23 and
    0..59. For hours and minutes of ordinary size (at most a million either
    way) they count through [60 * eventHour + eventMinute] only, minutes of
    60 and more carrying into the hours: two such schedules that agree on
    that number have the same target instant and the same window. *)
Theorem event_time_carries_over (tz : Z) (scope : Scope) (today : Date.t)
    (schedule schedule' : EventSchedule) :
  moderateTime schedule ->
  moderateTime schedule' ->
  60 * eventHour schedule + eventMinute schedule
  = 60 * eventHour schedule' + eventMinute schedule' ->
  eventDateOf today schedule = eventDateOf today schedule'
  /\ timeWindowMatches tz scope today schedule = timeWindowMatches tz scope today schedule'.
Proof.
  intros _ _ Hsame.
  assert (Heq : eventDateOf today schedule = eventDateOf today schedule').
  { unfold eventDateOf, Date.setHours, Date.msPerHour, Date.msPerMinute, Date.msPerSecond. lia. }
  split; [exact Heq |]. unfold timeWindowMatches. rewrite Heq. reflexivity.
Qed.

(** 08:60 is 09:00. *)
Lemma event_time_carries_over_witness :
  timeWindowMatches Sample.tz (Sample.scopeAt Sample.wednesdayMorning) Sample.wednesdayMorning
    (Sample.rule "ec2" "i-1" "start" 8 60 Sample.weekdaysMonToFri (Some 0))
  = timeWindowMatches Sample.tz (Sample.scopeAt Sample.wednesdayMorning)
      Sample.wednesdayMorning Sample.startAtNine.
Proof.
  apply (event_time_carries_over Sample.tz (Sample.scopeAt Sample.wednesdayMorning)
           Sample.wednesdayMorning
           (Sample.rule "ec2" "i-1" "start" 8 60 Sample.weekdaysMonToFri (Some 0))
           Sample.startAtNine).
  - vm_compute. repeat split; discriminate.
  - vm_compute. repeat split; discriminate.
  - reflexivity.
Defined.

(** X14: a schedule with hours and minutes of ordinary size (at most a
    million either way) whose time is no time of the day never matches while
    the clock stays on the day the invocation began: neither one for 24:00
    or later, nor one for more than five minutes before 00:00. *)
Theorem event_time_outside_the_day_never_matches (tz : Z) (w : World) (today : Date.t)
    (schedule : EventSchedule) :
  Date.day today = Date.day (clock w (reads w)) ->
  moderateTime schedule ->
  60 * eventHour schedule + eventMinute schedule < -5
  \/ 1440 <= 60 * eventHour schedule + eventMinute schedule ->
  timeWindowMatches tz (fst (handlerScope w)) today schedule = false.
Proof.
  intros Hday _ Hout. apply not_true_is_false.
  rewrite (timeWindowMatches_minutes tz w today schedule Hday).
  pose proof (clock_fields_range (clock w (reads w))). lia.
Qed.

(** A schedule for 24:00 is not one for midnight. *)
Lemma event_time_outside_the_day_never_matches_witness :
  timeWindowMatches Sample.tz
    (fst (handlerScope (Sample.worldAt (Date.make 2024 1 10 0 0 30 0))))
    (Date.make 2024 1 10 0 0 30 0)
    (Sample.rule "ec2" "i-1" "start" 24 0 Sample.weekdaysMonToFri (Some 0))
  = false.
Proof.
  apply (event_time_outside_the_day_never_matches Sample.tz
           (Sample.worldAt (Date.make 2024 1 10 0 0 30 0))
           (Date.make 2024 1 10 0 0 30 0)
           (Sample.rule "ec2" "i-1" "start" 24 0 Sample.weekdaysMonToFri (Some 0))).
  - reflexivity.
  - vm_compute. repeat split; discriminate.
  - right. vm_compute. discriminate.
Defined.

(** X15: the entries of [weekdays] are compared with the numbers 0 to 6 as
    they are. A schedule with no entry in that range, the empty list
    included and also one that writes Sunday as 7, never sends a command:
    its item is the one for the time window or the one for the weekday. *)
Theorem weekdays_outside_0_to_6_never_fire (tz : Z) (scope : Scope)
    (schedule : EventSchedule) (w : World) :
  (forall weekday, weekday ∈ weekdays schedule -> weekday < 0 \/ 6 < weekday) ->
  dispatched (snd (scheduleCallback tz scope schedule w)) = dispatched w
  /\ (details (fst (scheduleCallback tz scope schedule w))
      = MESSAGES.CANCELLED_TIME_OUT_OF_RANGE
      \/ details (fst (scheduleCallback tz scope schedule w))
         = MESSAGES.CANCELLED_TODAY_NOT_WORKING_DAY (currentDate scope)).
Proof.
  intros Hout.
  assert (Hweekday : weekdayAllowed scope schedule = false).
  { apply not_true_is_false. rewrite weekdayAllowed_iff. intros Hin.
    pose proof (getDay_range (currentDate scope)).
    destruct (Hout _ Hin); lia. }
  rewrite scheduleCallback_eq, Hweekday. cbn [negb].
  destruct (negb (timeWindowMatches tz scope (clock w (reads w)) schedule));
    (split; [reflexivity | auto]).
Qed.

(** Sunday written as 7. *)
Lemma weekdays_outside_0_to_6_never_fire_witness :
  dispatched (snd (scheduleCallback Sample.tz (Sample.scopeAt Sample.sundayMorning)
                     (Sample.rule "ec2" "i-1" "start" 9 0 [7] (Some 0))
                     (Sample.worldAfterFetch Sample.sundayMorning)))
  = dispatched (Sample.worldAfterFetch Sample.sundayMorning).
Proof.
  apply (weekdays_outside_0_to_6_never_fire Sample.tz (Sample.scopeAt Sample.sundayMorning)
           (Sample.rule "ec2" "i-1" "start" 9 0 [7] (Some 0))
           (Sample.worldAfterFetch Sample.sundayMorning)).
  intros weekday Hin. apply list_elem_of_In in Hin. cbn [In weekdays Sample.rule] in Hin.
  destruct Hin as [<- | []]. right. lia.
Defined.
